(** * SEM planner backend: keyword pipeline, budget calculator and endpoint

    A shallow embedding of [keyword_service.py] and [main.py].

    - Python [str] values are Rocq strings of ASCII characters.
    - Python [int] values are [Z]; Python [float] values are binary64
      primitive floats, so [+], [/] and [round] compute bit for bit.
    - Python dictionaries whose entries are added and read by key
      ([ad_groups], the CPC recommendations) are [gmap string _]; the
      keyword records and the other fixed-shape dictionaries are records.
    - [print] calls have no effect on any returned value and are left out. *)

From Stdlib Require Import ZArith Floats Ascii String.
From stdpp Require Import gmap strings list fin_maps pretty.
Set Warnings "-inexact-float".

Open Scope string_scope.
Open Scope list_scope.
Open Scope Z_scope.

(** ** Python builtins used by the service *)

Module Py.

(** [ch.isspace()] on the ASCII range: TAB..CR, FS..US and SPACE. *)
Definition isspace (a : ascii) : bool :=
  let n := Z.of_N (N_of_ascii a) in
  ((9 <=? n) && (n <=? 13)) || ((28 <=? n) && (n <=? 32)).

Definition isupper (a : ascii) : bool :=
  let n := Z.of_N (N_of_ascii a) in (65 <=? n) && (n <=? 90).

Definition isalpha (a : ascii) : bool :=
  let n := Z.of_N (N_of_ascii a) in
  ((65 <=? n) && (n <=? 90)) || ((97 <=? n) && (n <=? 122)).

Definition isdigit (a : ascii) : bool :=
  let n := Z.of_N (N_of_ascii a) in (48 <=? n) && (n <=? 57).

(** A regex word character [\w]: letter, digit or underscore. *)
Definition isword (a : ascii) : bool :=
  isalpha a || isdigit a || (Z.of_N (N_of_ascii a) =? 95).

Definition lower_char (a : ascii) : ascii :=
  if isupper a then ascii_of_N (N_of_ascii a + 32) else a.

(** [s.lower()] *)
Fixpoint lower (s : string) : string :=
  match s with
  | EmptyString => EmptyString
  | String a s' => String (lower_char a) (lower s')
  end.

Fixpoint lstrip (s : string) : string :=
  match s with
  | EmptyString => EmptyString
  | String a s' => if isspace a then lstrip s' else s
  end.

Definition rstrip (s : string) : string :=
  String.rev (lstrip (String.rev s)).

(** [s.strip()] *)
Definition strip (s : string) : string := rstrip (lstrip s).

(** Cuts [s] at the characters satisfying [sep]; [cur] is the piece read
    so far, in reverse.  Empty pieces are dropped. *)
Fixpoint runs (sep : ascii -> bool) (cur : string) (s : string) : list string :=
  match s with
  | EmptyString =>
      match cur with EmptyString => [] | _ => [String.rev cur] end
  | String a s' =>
      if sep a then
        match cur with
        | EmptyString => runs sep EmptyString s'
        | _ => String.rev cur :: runs sep EmptyString s'
        end
      else runs sep (String a cur) s'
  end.

(** [s.split()]: the maximal runs of non-whitespace characters. *)
Definition split (s : string) : list string := runs isspace EmptyString s.

(** [s.split(',')]: every piece between separators, empty ones included. *)
Fixpoint split_on (sep : ascii) (cur : string) (s : string) : list string :=
  match s with
  | EmptyString => [String.rev cur]
  | String a s' =>
      if Ascii.eqb a sep then String.rev cur :: split_on sep EmptyString s'
      else split_on sep (String a cur) s'
  end.

(** [needle in text] for strings: substring test. *)
Fixpoint contains (needle text : string) : bool :=
  String.prefix needle text ||
  match text with
  | EmptyString => false
  | String _ text' => contains needle text'
  end.

(** [sep.join(parts)] *)
Fixpoint join (sep : string) (parts : list string) : string :=
  match parts with
  | [] => EmptyString
  | [p] => p
  | p :: rest => p +:+ sep +:+ join sep rest
  end.

Definition all_chars (p : ascii -> bool) (s : string) : bool :=
  forallb p (list_ascii_of_string s).

(** [re.findall(r'\b[a-zA-Z]{3,}\b', text)]: a match starts and ends at a
    word boundary, so it is a maximal run of word characters; it is kept
    when it has letters only and at least three of them. *)
Definition findall_words (text : string) : list string :=
  List.filter
    (fun w => all_chars isalpha w && (3 <=? Z.of_nat (String.length w)))
    (runs (fun a => negb (isword a)) EmptyString text).

(** [any(f(x) for x in xs)] *)
Definition any {A} (f : A -> bool) (xs : list A) : bool := existsb f xs.

(** Truth value of an [Optional[str]]: [None] and [''] are false. *)
Definition truthy (o : option string) : bool :=
  match o with
  | Some (String _ _) => true
  | _ => false
  end.

(** [float(z)] for an [int]: the nearest binary64 value. *)
Definition float_of_int (z : Z) : float :=
  SF2Prim (binary_normalize prec emax z 0 false).

(** [a / b] rounded to the nearest integer, ties to even ([0 < b]). *)
Definition div_half_even (a b : Z) : Z :=
  let q := a / b in
  match Z.compare (2 * (a mod b)) b with
  | Lt => q
  | Gt => q + 1
  | Eq => if Z.even q then q else q + 1
  end.

(** The binary64 value nearest to [(-1)^s * n / d], for [0 < n], [0 < d]. *)
Definition nearest_float (s : bool) (n d : Z) : float :=
  let '(q, e, l) := SFdiv_core_binary prec emax n 0 d 0 in
  SF2Prim (binary_round_aux prec emax s q e l).

(** [round(x, 2)] for a float: the exact binary value of [x] is rounded
    to two decimals, ties to even, and that decimal is converted back to
    the nearest float.  NaN, the infinities and the zeros round to
    themselves. *)
Definition round2 (x : float) : float :=
  match Prim2SF x with
  | S754_finite s m e =>
      let n := if 0 <=? e then Z.pos m * 2 ^ e * 100
               else div_half_even (Z.pos m * 100) (2 ^ (- e)) in
      if n =? 0 then (if s then (-0)%float else 0%float)
      else nearest_float s n 100
  | _ => x
  end.

End Py.

(** ** Data model *)

(** A keyword dictionary as built by the generator: keys ['keyword'],
    ['search_volume'], ['competition'], ['cpc_low'], ['cpc_high']. *)
Record keyword_record := {
  keyword : string;
  search_volume : Z;
  competition : string;
  cpc_low : float;
  cpc_high : float
}.

(** The dictionary [discover_keywords] returns on success. *)
Record keyword_data := {
  total_keywords : Z;
  keywords : list keyword_record;
  ad_groups : gmap string (list keyword_record);
  seed_keywords_used : list string
}.

(** [discover_keywords] returns either that dictionary or [{'error': msg}];
    ['error' in keyword_data] tests which of the two it is. *)
Inductive pipeline_result :=
  | PipelineOk (d : keyword_data)
  | PipelineError (error : string).

(** Result of fetching and parsing a page: the title text if there is a
    title, the [content] of the description meta tag if there is one, and
    the texts of the h1, h2 and h3 headings. *)
Record page := {
  page_title : option string;
  page_meta_description : option string;
  page_headings : list string
}.

(** ** keyword_service.py *)

(** *** Keyword idea generation (mock data) *)

Definition base_volumes : list Z :=
  [1000; 2500; 5000; 1200; 800; 3200; 4500; 600; 1800; 2200].

Definition competitions : list string := ["LOW"; "MEDIUM"; "HIGH"].

Definition suffixes : list string :=
  [EmptyString; " online"; " shop"; " buy"; " best"; " reviews"].

(** [xs[i % len(xs)]] *)
Definition cycle_nth {A} (d : A) (xs : list A) (i : Z) : A :=
  nth (Z.to_nat (i mod Z.of_nat (length xs))) xs d.

(** The dictionary appended for seed number [i] and one suffix. *)
Definition mock_keyword (i : Z) (seed suffix : string) : keyword_record :=
  {| keyword := Py.strip (seed +:+ suffix);
     search_volume := cycle_nth 0 base_volumes i + i * 100;
     competition := cycle_nth EmptyString competitions i;
     cpc_low := Py.round2 (0.5 + Py.float_of_int i * 0.3)%float;
     cpc_high := Py.round2 (1.2 + Py.float_of_int i * 0.4)%float |}.

(** The loop over [enumerate(...)], started at index [i]. *)
Fixpoint mock_keywords (i : Z) (seeds : list string) : list keyword_record :=
  match seeds with
  | [] => []
  | seed :: rest =>
      map (mock_keyword i seed) suffixes ++ mock_keywords (i + 1) rest
  end.

(** No step of the mock path raises, so neither handler returning [[]]
    is reached. *)
Definition get_keyword_ideas_from_google (seed_keywords : list string)
  : list keyword_record :=
  mock_keywords 0 (take 10 seed_keywords).

(** *** Grouping into ad groups *)

Definition empty_ad_groups : gmap string (list keyword_record) :=
  <["brand_terms" := []]> (<["category_terms" := []]>
  (<["competitor_terms" := []]> (<["location_terms" := []]>
  (<["long_tail_terms" := []]> ∅)))).

(** [d[key].append(kw)] on a key that is present. *)
Definition dict_append (key : string) (kw : keyword_record)
    (d : gmap string (list keyword_record)) : gmap string (list keyword_record) :=
  alter (fun l => l ++ [kw]) key d.

Definition competitor_tokens : list string :=
  ["vs"; "versus"; "compared"; "alternative"].

Definition location_tokens : list string :=
  ["near me"; "local"; "city"; "area"].

(** One iteration of the grouping loop. *)
Definition group_step (groups : gmap string (list keyword_record))
    (kw : keyword_record) : gmap string (list keyword_record) :=
  let kw_text := Py.lower (keyword kw) in
  if 3 <=? Z.of_nat (length (Py.split kw_text)) then
    dict_append "long_tail_terms" kw groups
  else if Py.any (fun comp => Py.contains comp kw_text) competitor_tokens then
    dict_append "competitor_terms" kw groups
  else if Py.any (fun loc => Py.contains loc kw_text) location_tokens then
    dict_append "location_terms" kw groups
  else if String.eqb (competition kw) "HIGH" then
    dict_append "brand_terms" kw groups
  else
    dict_append "category_terms" kw groups.

Definition group_keywords_into_ad_groups (kws : list keyword_record)
  : gmap string (list keyword_record) :=
  foldl group_step empty_ad_groups kws.

(** [sum(len(v) for v in ad_groups.values())] *)
Definition bucket_sizes_sum (groups : gmap string (list keyword_record)) : Z :=
  Z.of_nat (sum_list_with (fun kv => length (snd kv)) (map_to_list groups)).

(** *** Seed extraction and the pipeline *)

Definition fallback_seeds : list string :=
  ["digital marketing"; "online services"; "web solutions";
   "business consulting"].

Definition stop_words : list string :=
  ["the"; "and"; "for"; "are"; "but"; "not"; "you"; "all"; "can"; "her";
   "was"; "one"; "our"; "had"; "but"; "words"; "use"; "each"; "which";
   "she"; "how"; "its"; "said"; "from"; "they"; "this"; "been"; "have";
   "their"; "with"; "that"].

Definition option_list {A} (o : option A) : list A :=
  match o with Some x => [x] | None => [] end.

Section Pipeline.

(** The network and the HTML parser: [fetch url] is the parsed page, or
    [None] when [requests.get] or the parsing raises. *)
Variable fetch : string -> option page.

(** [list(set(ws))]: the iteration order of a Python set is not
    specified, so the service is modelled for every such function. *)
Variable set_to_list : list string -> list string.

Definition extract_seed_keywords (website_url : string) : list string :=
  match fetch website_url with
  | Some soup =>
      let text_content :=
        option_list (page_title soup)
        ++ option_list (page_meta_description soup)
        ++ page_headings soup in
      let all_text := Py.lower (Py.join " " text_content) in
      let words := Py.findall_words all_text in
      let keywords :=
        set_to_list
          (filter (fun word => word ∉ stop_words) words) in
      take 10 keywords
  | None => fallback_seeds
  end.

(** Steps 3 and 4 of [discover_keywords] and the dictionary it returns,
    for the seeds and the generated keyword ideas at hand. *)
Definition assemble_keyword_data (seed_keywords : list string)
    (keyword_ideas : list keyword_record) : keyword_data :=
  let filtered_keywords :=
    filter (fun kw => 500 <= search_volume kw) keyword_ideas in
  let groups := group_keywords_into_ad_groups filtered_keywords in
  {| total_keywords := Z.of_nat (length filtered_keywords);
     keywords := filtered_keywords;
     ad_groups := groups;
     seed_keywords_used := seed_keywords |}.

(** The seeds of step 1: the brand site's, extended by the competitor
    site's when a competitor website is given. *)
Definition collect_seeds (brand_website : string)
    (competitor_website : option string) : list string :=
  let seed_keywords := extract_seed_keywords brand_website in
  if Py.truthy competitor_website then
    seed_keywords ++ extract_seed_keywords (default EmptyString competitor_website)
  else seed_keywords.

(** No step of the body raises in this model, so the handler returning
    [{'error': str(e)}] is not reached from here; the endpoint below is
    defined for both shapes of the result. *)
Definition discover_keywords (brand_website : string)
    (competitor_website : option string) (locations : option (list string))
  : pipeline_result :=
  let seed_keywords := collect_seeds brand_website competitor_website in
  let keyword_ideas := get_keyword_ideas_from_google seed_keywords in
  PipelineOk (assemble_keyword_data seed_keywords keyword_ideas).

End Pipeline.

(** ** main.py *)

Record SEMAnalysisRequest := {
  brand_website : string;
  competitor_website : option string;
  service_locations : option string;
  shopping_budget : Z;
  search_budget : Z;
  pmax_budget : Z
}.

(** One theme summary: [{"theme", "keywords", "estimated_reach"}]. *)
Record theme_summary := {
  theme : string;
  theme_keywords : Z;
  estimated_reach : Z
}.

Record pmax_themes := {
  product_category_themes : list theme_summary;
  use_case_themes : list theme_summary;
  demographic_themes : list theme_summary;
  seasonal_themes : list theme_summary
}.

Record budget_allocation := {
  alloc_shopping_budget : Z;
  alloc_search_budget : Z;
  alloc_pmax_budget : Z;
  alloc_total_budget : Z
}.

Record campaign_suggestions := {
  performance_max_themes : pmax_themes;
  budget_alloc : budget_allocation
}.

(** One entry of the CPC recommendations. *)
Record cpc_recommendation := {
  suggested_cpc : float;
  target_cpa : float;
  rec_competition : string;
  priority : string
}.

(** The JSON body of a successful analysis. *)
Record analysis_response := {
  resp_total_keywords : Z;
  resp_keywords : list keyword_record;
  resp_ad_groups : gmap string (list keyword_record);
  resp_campaign_suggestions : campaign_suggestions;
  resp_cpc_recommendations : gmap string cpc_recommendation;
  resp_seed_keywords_used : list string
}.

(** The exception the endpoint raises. *)
Inductive exn :=
  | HTTPException (status_code : Z) (detail : string).

(** What the client receives: the body with status 200, or the status and
    detail of the [HTTPException] that left the endpoint. *)
Inductive http_response :=
  | Ok200 (body : analysis_response)
  | HTTPError (status_code : Z) (detail : string).

Definition response_status (r : http_response) : Z :=
  match r with
  | Ok200 _ => 200
  | HTTPError status_code _ => status_code
  end.

(** [sum(kw['search_volume'] for kw in kws)] *)
Definition sum_search_volume (kws : list keyword_record) : Z :=
  foldr Z.add 0 (map search_volume kws).

(** [d.get(key, [])] *)
Definition dict_get_list (d : gmap string (list keyword_record)) (key : string)
  : list keyword_record :=
  default [] (d !! key).

Definition calculate_campaign_suggestions (data : keyword_data)
    (shopping search pmax : Z) : campaign_suggestions :=
  let all_keywords := keywords data in
  let product_keywords :=
    filter (fun kw => 5000 < search_volume kw) all_keywords in
  let long_tail := dict_get_list (ad_groups data) "long_tail_terms" in
  let location_based := dict_get_list (ad_groups data) "location_terms" in
  {| performance_max_themes :=
       {| product_category_themes :=
            [ {| theme := "High Volume Products";
                 theme_keywords := Z.of_nat (length product_keywords);
                 estimated_reach := sum_search_volume product_keywords |} ];
          use_case_themes :=
            [ {| theme := "Detailed Solutions";
                 theme_keywords := Z.of_nat (length long_tail);
                 estimated_reach := sum_search_volume long_tail |} ];
          demographic_themes :=
            [ {| theme := "Location-Based Services";
                 theme_keywords := Z.of_nat (length location_based);
                 estimated_reach := sum_search_volume location_based |} ];
          seasonal_themes := [] |};
     budget_alloc :=
       {| alloc_shopping_budget := shopping;
          alloc_search_budget := search;
          alloc_pmax_budget := pmax;
          alloc_total_budget := shopping + search + pmax |} |}.

Definition conversion_rate : float := 0.02%float.

(** The dictionary stored under [keyword['keyword']] by one iteration. *)
Definition recommend (kw : keyword_record) : cpc_recommendation :=
  let avg_cpc := ((cpc_low kw + cpc_high kw) / 2)%float in
  let cpa := (avg_cpc / conversion_rate)%float in
  {| suggested_cpc := Py.round2 avg_cpc;
     target_cpa := Py.round2 cpa;
     rec_competition := competition kw;
     priority :=
       if (10000 <? search_volume kw) && String.eqb (competition kw) "MEDIUM"
       then "HIGH" else "MEDIUM" |}.

(** The loop [recommendations[keyword['keyword']] = ...], from the
    dictionary [recs] on. *)
Definition recommend_loop (recs : gmap string cpc_recommendation)
    (kws : list keyword_record) : gmap string cpc_recommendation :=
  foldl (fun recommendations kw => <[keyword kw := recommend kw]> recommendations)
    recs kws.

Definition calculate_cpc_recommendations (kws : list keyword_record)
    (total_budget : Z) : gmap string cpc_recommendation :=
  recommend_loop ∅ kws.

(** [[loc.strip() for loc in s.split(',')]], or [[]] without locations. *)
Definition parse_locations (service_locations : option string) : list string :=
  if Py.truthy service_locations then
    map Py.strip
      (Py.split_on "," EmptyString (default EmptyString service_locations))
  else [].

Section Endpoint.

Variable fetch : string -> option page.
Variable set_to_list : list string -> list string.

(** [str(e)] for an exception; the web framework defines it. *)
Variable exn_str : exn -> string.

(** The [try] block from the test of the ['error'] key on: the value
    returned, or the exception raised. *)
Definition analyze_try (data : pipeline_result) (request : SEMAnalysisRequest)
  : exn + analysis_response :=
  match data with
  | PipelineError error => inl (HTTPException 400 error)
  | PipelineOk d =>
      let suggestions :=
        calculate_campaign_suggestions d (shopping_budget request)
          (search_budget request) (pmax_budget request) in
      let recommendations :=
        calculate_cpc_recommendations (keywords d)
          (shopping_budget request + search_budget request
           + pmax_budget request) in
      inr {| resp_total_keywords := total_keywords d;
             resp_keywords := keywords d;
             resp_ad_groups := ad_groups d;
             resp_campaign_suggestions := suggestions;
             resp_cpc_recommendations := recommendations;
             resp_seed_keywords_used := seed_keywords_used d |}
  end.

(** The [try] block with its handler: [except Exception as e] catches
    every exception raised in the block, the [HTTPException] included
    (it derives from [Exception]), and raises
    [HTTPException(status_code=500, detail=str(e))]. *)
Definition analyze_with (data : pipeline_result) (request : SEMAnalysisRequest)
  : http_response :=
  match analyze_try data request with
  | inr body => Ok200 body
  | inl e => HTTPError 500 (exn_str e)
  end.

Definition analyze_sem_campaign (request : SEMAnalysisRequest) : http_response :=
  let locations := parse_locations (service_locations request) in
  let data :=
    discover_keywords fetch set_to_list (brand_website request)
      (competitor_website request) None in
  analyze_with data request.

End Endpoint.

(** ** The documented bucketing rule *)

Definition bucket_names : list string :=
  ["brand_terms"; "category_terms"; "competitor_terms"; "location_terms";
   "long_tail_terms"].

(** The text contains one of the tokens. *)
Definition has_token (tokens : list string) (text : string) : Prop :=
  Exists (fun tok => Py.contains tok text = true) tokens.

#[global] Instance has_token_dec tokens text : Decision (has_token tokens text).
Proof. unfold has_token. apply _. Defined.

(** The bucket the first-match priority of the specification names:
    (1) three or more words, (2) a competitor-comparison token, (3) a
    locality token, (4) competition [HIGH], (5) otherwise; all on the
    lower-cased keyword text. *)
Definition bucket_by_priority (kw : keyword_record) : string :=
  let text := Py.lower (keyword kw) in
  if decide (3 <= length (Py.split text))%nat then "long_tail_terms"
  else if decide (has_token competitor_tokens text) then "competitor_terms"
  else if decide (has_token location_tokens text) then "location_terms"
  else if decide (competition kw = "HIGH") then "brand_terms"
  else "category_terms".

(** ** Sample inputs *)

Definition sample_keyword (text : string) (volume : Z) (comp : string)
  : keyword_record :=
  {| keyword := text; search_volume := volume; competition := comp;
     cpc_low := 0.5; cpc_high := 1.2 |}.

(** A network on which every fetch fails. *)
Definition offline : string -> option page := fun _ => None.

(** [str(e)] of the framework's [HTTPException]: status and detail. *)
Definition http_exception_str (e : exn) : string :=
  match e with
  | HTTPException status_code detail => pretty status_code +:+ ": " +:+ detail
  end.

(** A network with one page behind every URL. *)
Definition one_page : string -> option page := fun _ =>
  Some {| page_title := Some "The Best Running Shoes for You";
          page_meta_description := Some "Shoes, boots and more; shoes4all";
          page_headings := ["Trail & Road"; "Our running_gear"] |}.

Definition brand_only_request : SEMAnalysisRequest :=
  {| brand_website := "https://brand.invalid";
     competitor_website := None;
     service_locations := Some "Paris, Lyon";
     shopping_budget := 100; search_budget := 200; pmax_budget := 300 |}.

Definition brand_and_competitor_request : SEMAnalysisRequest :=
  {| brand_website := "https://brand.invalid";
     competitor_website := Some "https://competitor.invalid";
     service_locations := None;
     shopping_budget := 100; search_budget := 200; pmax_budget := 300 |}.

(** ** Notions used by the further properties *)

(** [ch.islower()] on the ASCII range. *)
Definition islower (a : ascii) : bool :=
  let n := Z.of_N (N_of_ascii a) in (97 <=? n) && (n <=? 122).

(** What Python guarantees of [list(set(ws))]: the elements of [ws], each
    once, in some order. *)
Definition set_semantics (set_to_list : list string -> list string) : Prop :=
  forall ws, NoDup (set_to_list ws) /\ forall w, w ∈ set_to_list ws <-> w ∈ ws.

(** A word as the scraper keeps them: lower-case letters only, at least
    three of them. *)
Definition scraped_word (w : string) : Prop :=
  Py.all_chars islower w = true /\ (3 <= String.length w)%nat.

(** A theme summary of an analysis with [total] keywords, all of volume
    500 or more: its count is within the total and its reach is at least
    500 per counted keyword. *)
Definition theme_within (total : Z) (t : theme_summary) : Prop :=
  0 <= theme_keywords t <= total /\ 500 * theme_keywords t <= estimated_reach t.

(** A network whose pages have no title, description or heading. *)
Definition blank_page : string -> option page := fun _ =>
  Some {| page_title := None; page_meta_description := None;
          page_headings := [] |}.

(** A network whose pages yield twelve different words. *)
Definition rich_page : string -> option page := fun _ =>
  Some {| page_title := Some "Alpha bravo charlie delta echo foxtrot";
          page_meta_description := None;
          page_headings := ["golf hotel india"; "juliet kilo lima"] |}.

(** The request [brand_only_request] without its service locations. *)
Definition brand_without_locations : SEMAnalysisRequest :=
  {| brand_website := "https://brand.invalid";
     competitor_website := None;
     service_locations := None;
     shopping_budget := 100; search_budget := 200; pmax_budget := 300 |}.


(** ** Facts about the Python builtins *)

Lemma any_has_token tokens text :
  Py.any (fun tok => Py.contains tok text) tokens = true <-> has_token tokens text.
Proof.
  unfold Py.any, has_token. rewrite existsb_exists, Exists_exists.
  split; intros (tok & Hin & Hc); exists tok; split; auto;
    by apply list_elem_of_In.
Qed.

Lemma any_no_token tokens text :
  Py.any (fun tok => Py.contains tok text) tokens = false <-> ~ has_token tokens text.
Proof.
  rewrite <- any_has_token. destruct (Py.any _ _); split; congruence.
Qed.

(** ** Facts about the grouping loop *)

Lemma bucket_by_priority_name kw : bucket_by_priority kw ∈ bucket_names.
Proof.
  unfold bucket_by_priority, bucket_names. cbv zeta.
  repeat case_decide; set_solver.
Qed.

(** Each iteration appends the keyword to the bucket of the rule. *)
Lemma group_step_priority groups kw :
  group_step groups kw = dict_append (bucket_by_priority kw) kw groups.
Proof.
  unfold group_step, bucket_by_priority. cbv zeta.
  set (text := Py.lower (keyword kw)).
  destruct (Z.leb_spec 3 (Z.of_nat (length (Py.split text)))) as [Hw | Hw].
  { rewrite decide_True by lia. done. }
  rewrite decide_False by lia.
  destruct (Py.any _ competitor_tokens) eqn:Hc.
  { apply any_has_token in Hc. by rewrite decide_True. }
  apply any_no_token in Hc. rewrite decide_False by done.
  destruct (Py.any _ location_tokens) eqn:Hl.
  { apply any_has_token in Hl. by rewrite decide_True. }
  apply any_no_token in Hl. rewrite decide_False by done.
  destruct (String.eqb_spec (competition kw) "HIGH") as [Hh | Hh].
  - by rewrite decide_True.
  - by rewrite decide_False.
Qed.

(** The loop, started from any dictionary, extends the list under each key
    by the keywords the rule sends there, in input order. *)
Lemma group_loop_lookup kws : forall groups key,
  foldl group_step groups kws !! key =
  (fun l => l ++ filter (fun kw => bucket_by_priority kw = key) kws)
    <$> groups !! key.
Proof.
  induction kws as [| kw kws IH]; intros groups key; simpl.
  - destruct (groups !! key); simpl; by rewrite ?app_nil_r.
  - rewrite IH, group_step_priority. unfold dict_append.
    rewrite filter_cons. case_decide as Hb.
    + rewrite Hb, lookup_alter_eq. destruct (groups !! key); simpl; [|done].
      by rewrite <- app_assoc.
    + by rewrite lookup_alter_ne.
Qed.

(** Reads [key] in a dictionary built by inserting literal bucket names:
    either [key] is the outermost name, or the lookup moves inwards. *)
Ltac lookup_bucket key :=
  match goal with
  | |- context [ <[?k := _]> _ !! key ] =>
      destruct (decide (key = k)) as [-> | ?];
      [ rewrite lookup_insert_eq;
        by rewrite decide_True by (rewrite !elem_of_cons; auto 10)
      | rewrite (lookup_insert_ne _ k key) by done ]
  end.

Lemma empty_ad_groups_lookup key :
  empty_ad_groups !! key =
  if decide (key ∈ bucket_names) then Some [] else None.
Proof.
  unfold empty_ad_groups, bucket_names.
  repeat lookup_bucket key.
  rewrite lookup_empty, decide_False; [done |].
  rewrite !elem_of_cons, elem_of_nil.
  intros [? | [? | [? | [? | [? | []]]]]]; congruence.
Qed.

Lemma group_lookup kws key :
  group_keywords_into_ad_groups kws !! key =
  if decide (key ∈ bucket_names)
  then Some (filter (fun kw => bucket_by_priority kw = key) kws)
  else None.
Proof.
  unfold group_keywords_into_ad_groups.
  rewrite group_loop_lookup, empty_ad_groups_lookup.
  by case_decide.
Qed.

Lemma group_get_list kws key :
  key ∈ bucket_names ->
  dict_get_list (group_keywords_into_ad_groups kws) key =
  filter (fun kw => bucket_by_priority kw = key) kws.
Proof.
  intros Hk. unfold dict_get_list. rewrite group_lookup.
  by rewrite decide_True.
Qed.

(** The five lists cut the input into disjoint parts: sizes add up. *)
Lemma bucket_filter_lengths kws :
  (sum_list_with
     (fun key => length (filter (fun kw => bucket_by_priority kw = key) kws))
     bucket_names = length kws)%nat.
Proof.
  induction kws as [| kw kws IH]; [done |].
  pose proof (bucket_by_priority_name kw) as Hb.
  unfold bucket_names in *. simpl in *. rewrite !filter_cons.
  rewrite !elem_of_cons, elem_of_nil in Hb.
  destruct Hb as [Hb | [Hb | [Hb | [Hb | [Hb | []]]]]]; rewrite Hb;
    repeat case_decide; try congruence; simpl; lia.
Qed.

Lemma bucket_filter_permutation kws :
  concat (map (fun key => filter (fun kw => bucket_by_priority kw = key) kws)
            bucket_names) ≡ₚ kws.
Proof.
  induction kws as [| kw kws IH]; [done |].
  pose proof (bucket_by_priority_name kw) as Hb.
  unfold bucket_names in *. simpl in *. rewrite !filter_cons.
  rewrite !elem_of_cons, elem_of_nil in Hb.
  destruct Hb as [Hb | [Hb | [Hb | [Hb | [Hb | []]]]]]; rewrite Hb;
    repeat case_decide; try congruence;
    simpl; rewrite <- ?Permutation_middle; by apply perm_skip.
Qed.

Lemma group_as_list kws :
  group_keywords_into_ad_groups kws =
  list_to_map
    (map (fun key => (key, filter (fun kw => bucket_by_priority kw = key) kws))
       bucket_names).
Proof.
  apply map_eq. intros key. rewrite group_lookup.
  unfold bucket_names. cbn [map].
  rewrite !list_to_map_cons, list_to_map_nil.
  repeat lookup_bucket key.
  rewrite lookup_empty, decide_False; [done |].
  rewrite !elem_of_cons, elem_of_nil.
  intros [? | [? | [? | [? | [? | []]]]]]; congruence.
Qed.

Lemma bucket_names_NoDup : NoDup bucket_names.
Proof. apply (bool_decide_unpack _). by vm_compute. Qed.

Lemma group_sizes_sum kws :
  bucket_sizes_sum (group_keywords_into_ad_groups kws) = Z.of_nat (length kws).
Proof.
  unfold bucket_sizes_sum. f_equal.
  rewrite group_as_list, map_to_list_to_map.
  - rewrite <- (bucket_filter_lengths kws).
    unfold bucket_names. simpl. done.
  - exact bucket_names_NoDup.
Qed.

(** C3: bucketing is total and exclusive.  The dictionary returned by
    [group_keywords_into_ad_groups] has exactly the five bucket keys; the
    sizes of its lists add up to the number of input keywords; the five
    lists together hold the input keywords, each as often as the input
    does; and an input keyword is a member of one bucket list only. *)
Theorem group_total_exclusive (kws : list keyword_record) :
  let groups := group_keywords_into_ad_groups kws in
  dom groups = list_to_set bucket_names /\
  Z.of_nat (length kws) = bucket_sizes_sum groups /\
  concat (map (dict_get_list groups) bucket_names) ≡ₚ kws /\
  Forall (fun kw =>
            exists key, key ∈ bucket_names /\
              forall key', kw ∈ dict_get_list groups key' <-> key' = key) kws.
Proof.
  cbv zeta. split; [| split; [| split]].
  - apply set_eq. intros key.
    rewrite elem_of_dom, group_lookup, elem_of_list_to_set.
    case_decide; split; intros H'; try done; by destruct H'.
  - by rewrite group_sizes_sum.
  - rewrite <- (bucket_filter_permutation kws) at 2.
    unfold bucket_names. simpl.
    by rewrite !group_get_list by (unfold bucket_names; set_solver).
  - apply Forall_forall. intros kw Hin.
    exists (bucket_by_priority kw). split; [apply bucket_by_priority_name |].
    intros key'. split.
    + unfold dict_get_list. rewrite group_lookup. case_decide; simpl.
      * rewrite list_elem_of_filter. by intros [? _].
      * intros Hnil. by apply elem_of_nil in Hnil.
    + intros ->. rewrite group_get_list by apply bucket_by_priority_name.
      by apply list_elem_of_filter.
Qed.

(** Closes a goal relating the bucket of the rule to its conditions. *)
Ltac bucket_cases :=
  intros ?kw; unfold bucket_by_priority; cbv zeta;
  repeat case_decide; split; intros ?Hb;
  repeat match goal with H : _ /\ _ |- _ => destruct H end;
  repeat split; first [congruence | lia | done].

(** C4: the bucket of every keyword follows the first-match priority on
    the lower-cased keyword text.  With [words] the number of
    whitespace-separated words of that text: [long_tail_terms] holds the
    keywords with three or more words; [competitor_terms] those with
    fewer words whose text contains 'vs', 'versus', 'compared' or
    'alternative'; [location_terms] those not placed before whose text
    contains 'near me', 'local', 'city' or 'area'; [brand_terms] those not
    placed before whose competition is 'HIGH'; [category_terms] all the
    others.  Each list keeps the input order. *)
Theorem group_first_match_priority (kws : list keyword_record) :
  let groups := group_keywords_into_ad_groups kws in
  let text := fun kw => Py.lower (keyword kw) in
  let words := fun kw => length (Py.split (text kw)) in
  dict_get_list groups "long_tail_terms" =
    filter (fun kw => (3 <= words kw)%nat) kws /\
  dict_get_list groups "competitor_terms" =
    filter (fun kw => (words kw < 3)%nat /\
                      has_token competitor_tokens (text kw)) kws /\
  dict_get_list groups "location_terms" =
    filter (fun kw => (words kw < 3)%nat /\
                      ~ has_token competitor_tokens (text kw) /\
                      has_token location_tokens (text kw)) kws /\
  dict_get_list groups "brand_terms" =
    filter (fun kw => (words kw < 3)%nat /\
                      ~ has_token competitor_tokens (text kw) /\
                      ~ has_token location_tokens (text kw) /\
                      competition kw = "HIGH") kws /\
  dict_get_list groups "category_terms" =
    filter (fun kw => (words kw < 3)%nat /\
                      ~ has_token competitor_tokens (text kw) /\
                      ~ has_token location_tokens (text kw) /\
                      competition kw <> "HIGH") kws.
Proof.
  cbv zeta.
  rewrite !group_get_list by (unfold bucket_names; rewrite !elem_of_cons; auto 10).
  repeat split; apply list_filter_iff; bucket_cases.
Qed.

(** The rules at work.  Three words win over a comparison token; a token
    is looked for as a substring ('city' in 'electricity'); 'HIGH'
    competition decides only when no token is found. *)
Example group_examples :
  let kws :=
    [ sample_keyword "Nike VS Adidas" 1000 "LOW";
      sample_keyword "Shoes Versus" 1000 "HIGH";
      sample_keyword "electricity online" 1000 "HIGH";
      sample_keyword "near me" 1000 "LOW";
      sample_keyword "shoes" 1000 "HIGH";
      sample_keyword "shoes" 1000 "MEDIUM" ] in
  let groups := group_keywords_into_ad_groups kws in
  map keyword (dict_get_list groups "long_tail_terms") = ["Nike VS Adidas"] /\
  map keyword (dict_get_list groups "competitor_terms") = ["Shoes Versus"] /\
  map keyword (dict_get_list groups "location_terms")
    = ["electricity online"; "near me"] /\
  map competition (dict_get_list groups "brand_terms") = ["HIGH"] /\
  map competition (dict_get_list groups "category_terms") = ["MEDIUM"].
Proof. vm_compute. repeat split. Qed.

(** ** Facts about the generator and the volume filter *)

Lemma cycle_nth_base_volumes i : 600 <= cycle_nth 0 base_volumes i.
Proof.
  unfold cycle_nth, base_volumes. simpl length.
  assert (0 <= i mod 10 < 10) as Hi by (apply Z.mod_pos_bound; lia).
  change (Z.of_nat 10) with 10.
  remember (Z.to_nat (i mod 10)) as n eqn:Hn.
  assert (n < 10)%nat as Hlt by lia. clear Hn Hi.
  do 10 (destruct n as [| n]; [simpl; lia |]). lia.
Qed.

Lemma mock_keyword_volume i seed suffix :
  search_volume (mock_keyword i seed suffix)
  = cycle_nth 0 base_volumes i + i * 100.
Proof. reflexivity. Qed.

Lemma mock_keywords_volumes seeds : forall i,
  0 <= i -> Forall (fun kw => 600 <= search_volume kw) (mock_keywords i seeds).
Proof.
  induction seeds as [| seed rest IH]; intros i Hi; simpl.
  - constructor.
  - pose proof (cycle_nth_base_volumes i) as Hb.
    repeat (constructor; [rewrite mock_keyword_volume; lia |]).
    apply IH. lia.
Qed.

Lemma mock_keywords_length seeds : forall i,
  length (mock_keywords i seeds) = (6 * length seeds)%nat.
Proof.
  induction seeds as [| seed rest IH]; intros i; simpl; [done |].
  rewrite IH. lia.
Qed.

Lemma filter_all {A} (P : A -> Prop) `{forall x, Decision (P x)} (l : list A) :
  Forall P l -> filter P l = l.
Proof.
  induction 1 as [| x l Hx Hl IH]; [done |].
  rewrite filter_cons, decide_True by done. by rewrite IH.
Qed.

Lemma filter_Forall {A} (P : A -> Prop) `{forall x, Decision (P x)} (l : list A) :
  Forall P (filter P l).
Proof. apply Forall_forall. intros x Hx. by apply list_elem_of_filter in Hx as [? _]. Qed.

Lemma generated_volumes seed_keywords :
  Forall (fun kw => 600 <= search_volume kw)
    (get_keyword_ideas_from_google seed_keywords).
Proof. apply mock_keywords_volumes. lia. Qed.

Lemma generated_length seed_keywords :
  Z.of_nat (length (get_keyword_ideas_from_google seed_keywords))
  = 6 * Z.min (Z.of_nat (length seed_keywords)) 10.
Proof.
  unfold get_keyword_ideas_from_google.
  rewrite mock_keywords_length, length_take. lia.
Qed.

Lemma generated_pass_filter seed_keywords :
  filter (fun kw => 500 <= search_volume kw)
    (get_keyword_ideas_from_google seed_keywords)
  = get_keyword_ideas_from_google seed_keywords.
Proof.
  apply filter_all. eapply Forall_impl; [apply generated_volumes |].
  simpl. intros kw Hkw. lia.
Qed.

(** C2, as the code has it: the seed list ["shoes"] yields the six
    variants 'shoes', 'shoes online', 'shoes shop', 'shoes buy',
    'shoes best', 'shoes reviews', and all six carry the search volume
    1000: the index in the volume formula is the seed's, so the variants
    of seed number [i] share [base_volumes[i mod 10] + 100 * i]. *)
Theorem mock_shoes_variants :
  map keyword (get_keyword_ideas_from_google ["shoes"])
    = ["shoes"; "shoes online"; "shoes shop"; "shoes buy"; "shoes best";
       "shoes reviews"] /\
  map search_volume (get_keyword_ideas_from_google ["shoes"])
    = [1000; 1000; 1000; 1000; 1000; 1000] /\
  forall i seed,
    map search_volume (map (mock_keyword i seed) suffixes)
    = replicate 6 (cycle_nth 0 base_volumes i + i * 100).
Proof. repeat split. Qed.

(** C2, as stated, fails: the volumes are not [1000,1100,1100,1100,1100,1100]. *)
Lemma mock_shoes_volumes_not_increasing :
  map search_volume (get_keyword_ideas_from_google ["shoes"])
  <> [1000; 1100; 1100; 1100; 1100; 1100].
Proof. vm_compute. discriminate. Qed.

(** C10: every keyword of the mocked generator has a search volume of at
    least 600, so the volume filter of the pipeline removes none of them,
    and [total_keywords] is six times the number of seeds the generator
    reads, which is the number of seeds capped at ten. *)
Theorem mock_volumes_pass_filter :
  (forall seed_keywords,
     let ideas := get_keyword_ideas_from_google seed_keywords in
     Forall (fun kw => 600 <= search_volume kw) ideas /\
     filter (fun kw => 500 <= search_volume kw) ideas = ideas /\
     Z.of_nat (length ideas) = 6 * Z.min (Z.of_nat (length seed_keywords)) 10) /\
  (forall fetch set_to_list brand competitor locations,
     exists d,
       discover_keywords fetch set_to_list brand competitor locations
         = PipelineOk d /\
       keywords d = get_keyword_ideas_from_google (seed_keywords_used d) /\
       total_keywords d
         = 6 * Z.min (Z.of_nat (length (seed_keywords_used d))) 10 /\
       total_keywords d <= 60).
Proof.
  split.
  - intros seed_keywords. cbv zeta.
    auto using generated_volumes, generated_pass_filter, generated_length.
  - intros fetch set_to_list brand competitor locations.
    eexists. split; [reflexivity |]. simpl.
    rewrite generated_pass_filter, generated_length. repeat split; lia.
Qed.

(** C7: the pipeline keeps exactly the generated records whose search
    volume is at least 500, in their order, and counts them; every record
    handed on, to the caller of [discover_keywords] and in the body of the
    endpoint's answer, has a search volume of at least 500. *)
Theorem pipeline_keeps_volume_500 :
  (forall seed_keywords keyword_ideas,
     let d := assemble_keyword_data seed_keywords keyword_ideas in
     keywords d = filter (fun kw => 500 <= search_volume kw) keyword_ideas /\
     (forall kw, kw ∈ keywords d <-> kw ∈ keyword_ideas /\ 500 <= search_volume kw) /\
     Forall (fun kw => 500 <= search_volume kw) (keywords d) /\
     total_keywords d = Z.of_nat (length (keywords d)) /\
     forall exn_str request,
       exists body,
         analyze_with exn_str (PipelineOk d) request = Ok200 body /\
         resp_keywords body = keywords d) /\
  (forall fetch set_to_list brand competitor locations,
     exists seed_keywords,
       discover_keywords fetch set_to_list brand competitor locations
       = PipelineOk
           (assemble_keyword_data seed_keywords
              (get_keyword_ideas_from_google seed_keywords))).
Proof.
  split.
  - intros seed_keywords keyword_ideas. cbv zeta. simpl.
    split; [done |]. split; [| split; [| split]].
    + intros kw. rewrite list_elem_of_filter. tauto.
    + apply filter_Forall.
    + done.
    + intros exn_str request. by eexists.
  - intros. by eexists.
Qed.

(** ** Facts about the CPC recommendations *)

(** Keywords with another text leave the entry of [key] as it is. *)
Lemma recommend_loop_other kws : forall recs key,
  Forall (fun kw => keyword kw <> key) kws ->
  recommend_loop recs kws !! key = recs !! key.
Proof.
  induction kws as [| kw kws IH]; intros recs key Hne; [done |].
  inversion Hne as [| ? ? Hkw Hrest]; subst. simpl.
  unfold recommend_loop in IH. rewrite IH by done.
  by rewrite lookup_insert_ne.
Qed.

(** The entry of a keyword text is the recommendation of the last record
    with that text: later assignments overwrite earlier ones. *)
Lemma recommendations_last pre kw post total_budget :
  Forall (fun kw' => keyword kw' <> keyword kw) post ->
  calculate_cpc_recommendations (pre ++ kw :: post) total_budget !! keyword kw
  = Some (recommend kw).
Proof.
  intros Hpost. unfold calculate_cpc_recommendations, recommend_loop.
  rewrite foldl_app. simpl.
  rewrite (recommend_loop_other post _ (keyword kw) Hpost).
  apply lookup_insert_eq.
Qed.

(** Every entry comes from a record of the input. *)
Lemma recommendations_from_input kws total_budget key r :
  calculate_cpc_recommendations kws total_budget !! key = Some r ->
  exists kw, kw ∈ kws /\ keyword kw = key /\ r = recommend kw.
Proof.
  unfold calculate_cpc_recommendations, recommend_loop.
  induction kws as [| kw kws IH] using rev_ind; simpl.
  - by rewrite lookup_empty.
  - rewrite foldl_snoc, lookup_insert. case_decide as Hk.
    + intros [= <-]. exists kw. rewrite elem_of_app, list_elem_of_singleton. auto.
    + intros Hl. destruct (IH Hl) as (kw' & Hin & Hkey & Hr).
      exists kw'. rewrite elem_of_app. auto.
Qed.

Lemma recommend_priority kw :
  priority (recommend kw) = "HIGH"
  <-> 10000 < search_volume kw /\ competition kw = "MEDIUM".
Proof.
  unfold recommend. simpl.
  destruct (Z.ltb_spec 10000 (search_volume kw));
    destruct (String.eqb_spec (competition kw) "MEDIUM"); simpl;
    split; intros; try done; try (exfalso; lia); tauto.
Qed.

Lemma recommend_priority_values kw :
  priority (recommend kw) = "HIGH" \/ priority (recommend kw) = "MEDIUM".
Proof. unfold recommend. simpl. destruct (_ && _); auto. Qed.

(** C5: the recommendation stored for a keyword has [suggested_cpc] equal
    to the average of [cpc_low] and [cpc_high] rounded to two decimals, and
    [target_cpa] equal to that average divided by 0.02, rounded to two
    decimals; with [cpc_low = 0.5] and [cpc_high = 1.2] these are 0.85 and
    42.5.  (The entry of a keyword text is written by the last record with
    that text.) *)
Theorem cpc_recommendation_values
    (pre post : list keyword_record) (kw : keyword_record) (total_budget : Z) :
  Forall (fun kw' => keyword kw' <> keyword kw) post ->
  exists r,
    calculate_cpc_recommendations (pre ++ kw :: post) total_budget !! keyword kw
      = Some r /\
    suggested_cpc r = Py.round2 ((cpc_low kw + cpc_high kw) / 2)%float /\
    target_cpa r = Py.round2 ((cpc_low kw + cpc_high kw) / 2 / 0.02)%float /\
    (cpc_low kw = 0.5%float -> cpc_high kw = 1.2%float ->
     suggested_cpc r = 0.85%float /\ target_cpa r = 42.5%float).
Proof.
  intros Hpost. exists (recommend kw).
  split; [by apply recommendations_last |].
  split; [done |]. split; [done |].
  intros Hlow Hhigh. unfold recommend, conversion_rate. simpl.
  rewrite Hlow, Hhigh. split; vm_compute; reflexivity.
Qed.

(** C6: the recommendation stored for a keyword has priority 'HIGH'
    exactly when the search volume exceeds 10000 and the competition is
    'MEDIUM', and 'MEDIUM' otherwise; volume 12000 with 'MEDIUM' gives
    'HIGH', volume 12000 with 'HIGH' gives 'MEDIUM'. *)
Theorem cpc_priority_rule
    (pre post : list keyword_record) (kw : keyword_record) (total_budget : Z) :
  Forall (fun kw' => keyword kw' <> keyword kw) post ->
  exists r,
    calculate_cpc_recommendations (pre ++ kw :: post) total_budget !! keyword kw
      = Some r /\
    (priority r = "HIGH"
     <-> 10000 < search_volume kw /\ competition kw = "MEDIUM") /\
    (~ (10000 < search_volume kw /\ competition kw = "MEDIUM")
     -> priority r = "MEDIUM") /\
    (search_volume kw = 12000 -> competition kw = "MEDIUM" -> priority r = "HIGH") /\
    (search_volume kw = 12000 -> competition kw = "HIGH" -> priority r = "MEDIUM").
Proof.
  intros Hpost. exists (recommend kw).
  split; [by apply recommendations_last |].
  pose proof (recommend_priority kw) as Hiff.
  pose proof (recommend_priority_values kw) as Hval.
  split; [done |]. split; [| split].
  - intros Hn. destruct Hval as [Hh | Hm]; [| done]. by apply Hiff in Hh.
  - intros Hv Hc. apply Hiff. split; [lia | done].
  - intros Hv Hc. destruct Hval as [Hh | Hm]; [| done].
    apply Hiff in Hh as [_ Hmed]. congruence.
Qed.

(** [target_cpa] is computed from the average before it is rounded: with
    [cpc_low = 0.01] and [cpc_high = 0.02] the average 0.015 is shown as
    0.01, and the target is 0.75, not 0.01 / 0.02 = 0.5. *)
Example target_cpa_from_unrounded_average :
  let r := recommend {| keyword := "shoes"; search_volume := 1000;
                        competition := "LOW";
                        cpc_low := 0.01; cpc_high := 0.02 |} in
  suggested_cpc r = 0.01%float /\ target_cpa r = 0.75%float /\
  Py.round2 (suggested_cpc r / conversion_rate)%float = 0.5%float.
Proof. vm_compute. repeat split. Qed.

(** C9: the recommendations do not depend on [total_budget]; the
    endpoint's recommendations are those of the keywords alone, whatever
    the three budgets of the request. *)
Theorem cpc_ignores_total_budget :
  (forall kws total_budget total_budget',
     calculate_cpc_recommendations kws total_budget
     = calculate_cpc_recommendations kws total_budget') /\
  (forall exn_str d request,
     exists body,
       analyze_with exn_str (PipelineOk d) request = Ok200 body /\
       resp_cpc_recommendations body
       = calculate_cpc_recommendations (keywords d) 0).
Proof.
  split.
  - reflexivity.
  - intros. by eexists.
Qed.

(** ** Facts about the endpoint *)

Lemma extract_seed_keywords_failure fetch set_to_list url :
  fetch url = None ->
  extract_seed_keywords fetch set_to_list url = fallback_seeds.
Proof. intros Hf. unfold extract_seed_keywords. by rewrite Hf. Qed.

(** On a pipeline result without the ['error'] key the endpoint answers
    200 and hands the seeds of the pipeline on. *)
Lemma analyze_seed_keywords fetch set_to_list exn_str request :
  exists body,
    analyze_sem_campaign fetch set_to_list exn_str request = Ok200 body /\
    resp_seed_keywords_used body
    = collect_seeds fetch set_to_list (brand_website request)
        (competitor_website request).
Proof. by eexists. Qed.

Example extract_seed_keywords_example :
  extract_seed_keywords one_page remove_dups "https://brand.example"
  = ["best"; "running"; "shoes"; "boots"; "more"; "trail"; "road"].
Proof. vm_compute. reflexivity. Qed.

(** C1, on the code: when the pipeline result holds the key ['error'], the
    [HTTPException] with status 400 raised in the [try] block is caught by
    the block's own [except Exception] handler, and the endpoint answers
    with status 500 and the text of that exception as detail -- not with
    status 400 and the error message as detail. *)
Theorem error_key_answers_500
    (exn_str : exn -> string) (error : string) (request : SEMAnalysisRequest) :
  analyze_try (PipelineError error) request = inl (HTTPException 400 error) /\
  analyze_with exn_str (PipelineError error) request
  = HTTPError 500 (exn_str (HTTPException 400 error)) /\
  response_status (analyze_with exn_str (PipelineError error) request) <> 400.
Proof. repeat split. simpl. lia. Qed.

Example error_key_example :
  analyze_with http_exception_str (PipelineError "boom") brand_only_request
  = HTTPError 500 "400: boom".
Proof. reflexivity. Qed.

(** C8, as the code has it: a URL whose fetch or parse fails yields the
    four fallback phrases; a request whose brand website fails is still
    answered with status 200; [seed_keywords_used] is the fallback list
    when no competitor website is given (absent or empty), and the
    fallback list followed by the competitor site's seeds otherwise. *)
Theorem fallback_on_failed_fetch
    (fetch : string -> option page) (set_to_list : list string -> list string)
    (exn_str : exn -> string) (url : string) :
  fetch url = None ->
  extract_seed_keywords fetch set_to_list url = fallback_seeds /\
  forall request, brand_website request = url ->
    exists body,
      analyze_sem_campaign fetch set_to_list exn_str request = Ok200 body /\
      response_status (analyze_sem_campaign fetch set_to_list exn_str request)
        = 200 /\
      (Py.truthy (competitor_website request) = false ->
       resp_seed_keywords_used body = fallback_seeds) /\
      (forall competitor,
         competitor_website request = Some competitor -> competitor <> EmptyString ->
         resp_seed_keywords_used body
         = fallback_seeds ++ extract_seed_keywords fetch set_to_list competitor).
Proof.
  intros Hf. split; [by apply extract_seed_keywords_failure |].
  intros request Hb.
  destruct (analyze_seed_keywords fetch set_to_list exn_str request)
    as (body & Hbody & Hseeds).
  exists body. rewrite Hbody. split; [done |]. split; [done |].
  rewrite Hseeds, Hb. unfold collect_seeds.
  rewrite (extract_seed_keywords_failure _ _ _ Hf). split.
  - by intros ->.
  - intros competitor -> Hne. destruct competitor; [done |]. done.
Qed.

(** C8, as stated, fails: with a competitor website the brand site's
    failure does not leave [seed_keywords_used] equal to the fallback
    list. *)
Lemma fallback_not_alone_with_competitor :
  offline (brand_website brand_and_competitor_request) = None /\
  ~ exists body,
      analyze_sem_campaign offline remove_dups http_exception_str
        brand_and_competitor_request = Ok200 body /\
      resp_seed_keywords_used body = fallback_seeds.
Proof.
  split; [done |]. intros (body & Hbody & Hseeds).
  destruct (analyze_seed_keywords offline remove_dups http_exception_str
              brand_and_competitor_request) as (body' & Hbody' & Hseeds').
  rewrite Hbody in Hbody'. injection Hbody' as <-.
  rewrite Hseeds in Hseeds'. vm_compute in Hseeds'. discriminate.
Qed.

Example fallback_twice_with_failing_competitor :
  exists body,
    analyze_sem_campaign offline remove_dups http_exception_str
      brand_and_competitor_request = Ok200 body /\
    resp_seed_keywords_used body = fallback_seeds ++ fallback_seeds /\
    resp_total_keywords body = 48.
Proof. eexists. split; [reflexivity |]. split; reflexivity. Qed.

(** ** Instances *)

Lemma fallback_on_failed_fetch_witness :
  offline "https://brand.invalid" = None /\
  extract_seed_keywords offline remove_dups "https://brand.invalid"
    = fallback_seeds /\
  exists body,
    analyze_sem_campaign offline remove_dups http_exception_str
      brand_only_request = Ok200 body /\
    resp_seed_keywords_used body = fallback_seeds.
Proof.
  assert (offline "https://brand.invalid" = None) as Hf by reflexivity.
  split; [exact Hf |].
  destruct (fallback_on_failed_fetch offline remove_dups http_exception_str
              "https://brand.invalid" Hf) as [Hx Hreq].
  split; [exact Hx |].
  destruct (Hreq brand_only_request eq_refl) as (body & Hb & _ & Hnone & _).
  exists body. split; [exact Hb |]. apply Hnone. reflexivity.
Defined.

Lemma cpc_recommendation_values_witness :
  Forall (fun kw' => keyword kw' <> keyword (sample_keyword "shoes" 1000 "LOW"))
    [sample_keyword "shoes shop" 1000 "LOW"] /\
  exists r,
    calculate_cpc_recommendations
      ([sample_keyword "boots" 1000 "LOW"]
       ++ sample_keyword "shoes" 1000 "LOW"
       :: [sample_keyword "shoes shop" 1000 "LOW"]) 600
      !! "shoes" = Some r /\
    suggested_cpc r = 0.85%float /\ target_cpa r = 42.5%float.
Proof.
  assert (Forall
            (fun kw' => keyword kw' <> keyword (sample_keyword "shoes" 1000 "LOW"))
            [sample_keyword "shoes shop" 1000 "LOW"]) as Hpost
    by (repeat constructor; discriminate).
  split; [exact Hpost |].
  destruct (cpc_recommendation_values [sample_keyword "boots" 1000 "LOW"]
              [sample_keyword "shoes shop" 1000 "LOW"]
              (sample_keyword "shoes" 1000 "LOW") 600 Hpost)
    as (r & Hr & _ & _ & Hvalues).
  exists r. split; [exact Hr |]. apply Hvalues; reflexivity.
Defined.

Lemma cpc_priority_rule_witness :
  Forall (fun kw' => keyword kw' <> keyword (sample_keyword "shoes" 12000 "MEDIUM"))
    [sample_keyword "boots" 12000 "HIGH"] /\
  exists r,
    calculate_cpc_recommendations
      ([sample_keyword "shoes" 900 "LOW"]
       ++ sample_keyword "shoes" 12000 "MEDIUM"
       :: [sample_keyword "boots" 12000 "HIGH"]) 600
      !! "shoes" = Some r /\
    priority r = "HIGH".
Proof.
  assert (Forall
            (fun kw' => keyword kw' <> keyword (sample_keyword "shoes" 12000 "MEDIUM"))
            [sample_keyword "boots" 12000 "HIGH"]) as Hpost
    by (repeat constructor; discriminate).
  split; [exact Hpost |].
  destruct (cpc_priority_rule [sample_keyword "shoes" 900 "LOW"]
              [sample_keyword "boots" 12000 "HIGH"]
              (sample_keyword "shoes" 12000 "MEDIUM") 600 Hpost)
    as (r & Hr & _ & _ & Hmedium & _).
  exists r. split; [exact Hr |]. apply Hmedium; reflexivity.
Defined.

(** * Further properties of the service *)

(** ** Characters of strings *)

Lemma chars_rev_app s : forall t,
  list_ascii_of_string (String.rev_app s t)
  = reverse (list_ascii_of_string s) ++ list_ascii_of_string t.
Proof.
  induction s as [| a s IH]; intros t; simpl; [done |].
  rewrite IH, reverse_cons, <- app_assoc. done.
Qed.

Lemma chars_rev s :
  list_ascii_of_string (String.rev s) = reverse (list_ascii_of_string s).
Proof. unfold String.rev. rewrite chars_rev_app. simpl. by rewrite app_nil_r. Qed.

Lemma chars_app s t :
  list_ascii_of_string (s +:+ t)
  = list_ascii_of_string s ++ list_ascii_of_string t.
Proof. induction s as [| a s IH]; simpl; [done |]. by rewrite IH. Qed.

Lemma chars_lower s :
  list_ascii_of_string (Py.lower s) = map Py.lower_char (list_ascii_of_string s).
Proof. induction s as [| a s IH]; simpl; [done |]. by rewrite IH. Qed.

Lemma chars_inj s t : list_ascii_of_string s = list_ascii_of_string t -> s = t.
Proof.
  intros H. rewrite <- (string_of_list_ascii_of_string s),
    <- (string_of_list_ascii_of_string t). by rewrite H.
Qed.

Lemma lower_char_not_upper a : Py.isupper (Py.lower_char a) = false.
Proof. destruct a as [[] [] [] [] [] [] [] []]; reflexivity. Qed.

Lemma alpha_not_upper_lower a :
  Py.isalpha a = true -> Py.isupper a = false -> islower a = true.
Proof.
  unfold Py.isalpha, Py.isupper, islower. cbv zeta.
  set (n := Z.of_N (N_of_ascii a)). intros Ha Hu.
  apply orb_true_iff in Ha as [Ha | Ha]; [congruence | done].
Qed.

(** The pieces cut out of a string are made of its characters. *)
Lemma runs_chars sep s : forall cur w c,
  w ∈ Py.runs sep cur s -> c ∈ list_ascii_of_string w ->
  c ∈ list_ascii_of_string cur \/ c ∈ list_ascii_of_string s.
Proof.
  induction s as [| a s IH]; intros cur w c Hw Hc; simpl in Hw.
  - destruct cur as [| b cur]; [by apply elem_of_nil in Hw |].
    apply list_elem_of_singleton in Hw as ->.
    rewrite chars_rev, elem_of_reverse in Hc. by left.
  - destruct (sep a).
    + assert (w = String.rev cur /\ cur <> EmptyString \/
              w ∈ Py.runs sep EmptyString s) as [[-> _] | Hin].
      { destruct cur; [by right |].
        apply elem_of_cons in Hw as [-> | Hw]; [by left | by right]. }
      * rewrite chars_rev, elem_of_reverse in Hc. by left.
      * destruct (IH _ _ _ Hin Hc) as [Hnil | Hs].
        -- by apply elem_of_nil in Hnil.
        -- right. simpl. by apply elem_of_cons; right.
    + destruct (IH _ _ _ Hw Hc) as [Hcur | Hs].
      * simpl in Hcur. apply elem_of_cons in Hcur as [-> | Hcur].
        -- right. simpl. by apply elem_of_cons; left.
        -- by left.
      * right. simpl. by apply elem_of_cons; right.
Qed.

Lemma all_chars_forall p s :
  Py.all_chars p s = true <-> forall c, c ∈ list_ascii_of_string s -> p c = true.
Proof.
  unfold Py.all_chars. rewrite forallb_forall.
  split; intros H c Hc; apply H; by apply list_elem_of_In.
Qed.

(** What the regular expression keeps. *)
Lemma findall_words_spec text w :
  w ∈ Py.findall_words text ->
  Py.all_chars Py.isalpha w = true /\ (3 <= String.length w)%nat /\
  forall c, c ∈ list_ascii_of_string w -> c ∈ list_ascii_of_string text.
Proof.
  unfold Py.findall_words. intros Hw.
  apply list_elem_of_In, filter_In in Hw as [Hw Hok].
  apply list_elem_of_In in Hw.
  apply andb_true_iff in Hok as [Halpha Hlen].
  split; [done |]. split; [lia |].
  intros c Hc. destruct (runs_chars _ _ _ _ _ Hw Hc) as [Hnil | Hs]; [| done].
  by apply elem_of_nil in Hnil.
Qed.

Lemma findall_words_lower text w :
  w ∈ Py.findall_words (Py.lower text) -> scraped_word w.
Proof.
  intros Hw. destruct (findall_words_spec _ _ Hw) as (Halpha & Hlen & Hsub).
  split; [| done]. apply all_chars_forall. intros c Hc.
  apply alpha_not_upper_lower.
  - by apply (proj1 (all_chars_forall _ _) Halpha).
  - specialize (Hsub c Hc). rewrite chars_lower in Hsub.
    apply list_elem_of_fmap in Hsub as (a & -> & _).
    apply lower_char_not_upper.
Qed.

Lemma remove_dups_set_semantics : set_semantics remove_dups.
Proof.
  intros ws. split; [apply NoDup_remove_dups |].
  intros w. apply elem_of_remove_dups.
Qed.

Lemma fallback_seeds_NoDup : NoDup fallback_seeds.
Proof. apply (bool_decide_unpack _). by vm_compute. Qed.

(** X1: whatever the URL and whether or not its fetch succeeds,
    [extract_seed_keywords] returns at most ten seeds and no seed twice. *)
Theorem extract_seeds_bounded
    (fetch : string -> option page) (set_to_list : list string -> list string)
    (url : string) :
  set_semantics set_to_list ->
  (length (extract_seed_keywords fetch set_to_list url) <= 10)%nat /\
  NoDup (extract_seed_keywords fetch set_to_list url).
Proof.
  intros Hset. unfold extract_seed_keywords.
  destruct (fetch url) as [soup |].
  - split.
    + rewrite length_take. lia.
    + eapply sublist_NoDup; [| apply sublist_take]. apply Hset.
  - split; [simpl; lia | apply fallback_seeds_NoDup].
Qed.

(** The seeds scraped from a page are words as the scraper keeps them,
    and none is a stop word. *)
Lemma extracted_words fetch set_to_list url soup :
  set_semantics set_to_list ->
  fetch url = Some soup ->
  Forall (fun w => scraped_word w /\ w ∉ stop_words)
    (extract_seed_keywords fetch set_to_list url).
Proof.
  intros Hset Hfetch. unfold extract_seed_keywords. rewrite Hfetch.
  apply Forall_forall. intros w Hw.
  apply subseteq_take in Hw. apply (proj1 (proj2 (Hset _) _)) in Hw.
  apply list_elem_of_filter in Hw as [Hstop Hw].
  split; [| done]. by apply findall_words_lower in Hw.
Qed.

(** X2: the seeds scraped from a page that was fetched are words of
    lower-case ASCII letters, three or more letters long, and none of them
    is a stop word. *)
Theorem extract_seeds_are_words
    (fetch : string -> option page) (set_to_list : list string -> list string)
    (url : string) (soup : page) :
  set_semantics set_to_list ->
  fetch url = Some soup ->
  Forall (fun w => scraped_word w /\ w ∉ stop_words)
    (extract_seed_keywords fetch set_to_list url).
Proof. apply extracted_words. Qed.

(** X3: [extract_seed_keywords] returns the four fallback phrases exactly
    when the fetch fails: no page, however written, yields that list. *)
Theorem fallback_only_on_failure
    (fetch : string -> option page) (set_to_list : list string -> list string)
    (url : string) :
  set_semantics set_to_list ->
  (extract_seed_keywords fetch set_to_list url = fallback_seeds
   <-> fetch url = None).
Proof.
  intros Hset. split; [| apply extract_seed_keywords_failure].
  intros Heq. destruct (fetch url) as [soup |] eqn:Hfetch; [| done].
  pose proof (extracted_words fetch set_to_list url soup Hset Hfetch) as Hall.
  rewrite Heq in Hall. apply Forall_cons in Hall as [[[Hlow _] _] _].
  vm_compute in Hlow. discriminate.
Qed.

(** ** More on the generator *)

Lemma mock_keywords_elem seeds : forall i kw,
  kw ∈ mock_keywords i seeds ->
  exists j seed suffix,
    i <= j < i + Z.of_nat (length seeds) /\ seed ∈ seeds /\
    suffix ∈ suffixes /\ kw = mock_keyword j seed suffix.
Proof.
  induction seeds as [| seed rest IH]; intros i kw Hkw; simpl in Hkw.
  - by apply elem_of_nil in Hkw.
  - change (mock_keyword i seed EmptyString :: ?l) with
      (map (mock_keyword i seed) suffixes ++ mock_keywords (i + 1) rest) in Hkw.
    apply elem_of_app in Hkw as [Hkw | Hkw].
    + apply list_elem_of_In, in_map_iff in Hkw as (suffix & <- & Hs).
      exists i, seed, suffix. simpl length.
      split; [lia |]. split; [by left |]. split; [by apply list_elem_of_In | done].
    + destruct (IH _ _ Hkw) as (j & seed' & suffix & Hj & Hseed & Hs & ->).
      exists j, seed', suffix. simpl length.
      split; [lia |]. split; [by right | done].
Qed.

Lemma generated_elem seed_keywords kw :
  kw ∈ get_keyword_ideas_from_google seed_keywords ->
  exists j seed suffix,
    0 <= j < 10 /\ seed ∈ seed_keywords /\ suffix ∈ suffixes /\
    kw = mock_keyword j seed suffix.
Proof.
  intros Hkw. apply mock_keywords_elem in Hkw
    as (j & seed & suffix & Hj & Hseed & Hs & ->).
  exists j, seed, suffix. rewrite length_take in Hj.
  split; [lia |]. split; [by apply subseteq_take in Hseed | done].
Qed.

Lemma index_cases j :
  0 <= j < 10 ->
  j = 0 \/ j = 1 \/ j = 2 \/ j = 3 \/ j = 4 \/ j = 5 \/ j = 6 \/ j = 7 \/
  j = 8 \/ j = 9.
Proof. lia. Qed.

(** Splits a goal about seed number [j] into the ten indices. *)
Ltac by_index Hj :=
  apply index_cases in Hj;
  repeat (destruct Hj as [-> | Hj]); [.. | subst].

Lemma mock_keyword_well_formed j seed suffix :
  0 <= j < 10 ->
  let kw := mock_keyword j seed suffix in
  1000 <= search_volume kw <= 5200 /\
  competition kw ∈ competitions /\
  PrimFloat.ltb (cpc_low kw) (cpc_high kw) = true.
Proof.
  intros Hj. cbv zeta. by_index Hj;
    (split; [vm_compute; split; discriminate |]);
    (split; [| vm_compute; reflexivity]);
    unfold competitions; simpl; rewrite !elem_of_cons; auto.
Qed.

Lemma mock_keyword_recommendation j seed suffix :
  0 <= j < 10 ->
  let kw := mock_keyword j seed suffix in
  let r := recommend kw in
  priority r = "MEDIUM" /\
  PrimFloat.ltb (cpc_low kw) (suggested_cpc r) = true /\
  PrimFloat.ltb (suggested_cpc r) (cpc_high kw) = true /\
  target_cpa r = (50 * suggested_cpc r)%float.
Proof.
  intros Hj. cbv zeta. by_index Hj; vm_compute; repeat split.
Qed.

(** X4: every record of the mocked generator has a search volume between
    1000 and 5200, a competition among 'LOW', 'MEDIUM' and 'HIGH', and a
    [cpc_low] strictly below its [cpc_high]. *)
Theorem generated_records_well_formed (seed_keywords : list string) :
  Forall (fun kw =>
            1000 <= search_volume kw <= 5200 /\
            competition kw ∈ competitions /\
            PrimFloat.ltb (cpc_low kw) (cpc_high kw) = true)
    (get_keyword_ideas_from_google seed_keywords).
Proof.
  apply Forall_forall. intros kw Hkw.
  apply generated_elem in Hkw as (j & seed & suffix & Hj & _ & _ & ->).
  by apply mock_keyword_well_formed.
Qed.

(** ** More on the recommendations *)

Lemma recommend_loop_dom kws : forall recs,
  dom (recommend_loop recs kws) = dom recs ∪ list_to_set (map keyword kws).
Proof.
  induction kws as [| kw kws IH]; intros recs; simpl.
  - by rewrite union_empty_r_L.
  - unfold recommend_loop in *. simpl. rewrite IH, dom_insert_L.
    rewrite (comm_L (∪) {[keyword kw]}), <- (assoc_L (∪)). done.
Qed.

Lemma list_to_set_remove_dups_strings (l : list string) :
  list_to_set (remove_dups l) =@{gset string} list_to_set l.
Proof.
  apply set_eq. intros x.
  by rewrite !elem_of_list_to_set, elem_of_remove_dups.
Qed.

Lemma length_remove_dups_le (l : list string) :
  (length (remove_dups l) <= length l)%nat.
Proof.
  induction l as [| x l IH]; simpl; [done |].
  case_decide; simpl; lia.
Qed.

(** X7: the recommendations have an entry for exactly the keyword texts
    of the input; their number is the number of different texts, at most
    the number of keyword records. *)
Theorem recommendations_keys (kws : list keyword_record) (total_budget : Z) :
  let recs := calculate_cpc_recommendations kws total_budget in
  dom recs = list_to_set (map keyword kws) /\
  size recs = length (remove_dups (map keyword kws)) /\
  (size recs <= length kws)%nat.
Proof.
  cbv zeta.
  assert (dom (calculate_cpc_recommendations kws total_budget)
          = list_to_set (map keyword kws)) as Hdom.
  { unfold calculate_cpc_recommendations.
    by rewrite recommend_loop_dom, dom_empty_L, union_empty_l_L. }
  assert (size (calculate_cpc_recommendations kws total_budget)
          = length (remove_dups (map keyword kws))) as Hsize.
  { rewrite <- size_dom, Hdom, <- list_to_set_remove_dups_strings.
    apply size_list_to_set, NoDup_remove_dups. }
  split; [done |]. split; [done |].
  rewrite Hsize. etrans; [apply length_remove_dups_le |].
  by rewrite length_map.
Qed.

(** X6: in every answer of the endpoint, every CPC recommendation has
    priority 'MEDIUM' (the mocked volumes never exceed 10000), a target CPA
    of exactly fifty times its suggested CPC, and a competition among the
    three labels. *)
Theorem response_priorities_medium
    (fetch : string -> option page) (set_to_list : list string -> list string)
    (exn_str : exn -> string) (request : SEMAnalysisRequest) :
  exists body,
    analyze_sem_campaign fetch set_to_list exn_str request = Ok200 body /\
    map_Forall
      (fun _ r => priority r = "MEDIUM" /\
                  target_cpa r = (50 * suggested_cpc r)%float /\
                  rec_competition r ∈ competitions)
      (resp_cpc_recommendations body).
Proof.
  eexists. split; [reflexivity |]. simpl.
  intros key r Hr.
  apply recommendations_from_input in Hr as (kw & Hkw & _ & ->).
  rewrite generated_pass_filter in Hkw.
  apply generated_elem in Hkw as (j & seed & suffix & Hj & _ & _ & ->).
  destruct (mock_keyword_recommendation j seed suffix Hj) as (Hp & _ & _ & Ht).
  destruct (mock_keyword_well_formed j seed suffix Hj) as (_ & Hc & _).
  done.
Qed.

(** X8: in every answer of the endpoint, [total_keywords] is the length
    of [keywords] and the sum of the sizes of the ad-group lists, and every
    member of an ad-group list is one of the [keywords]. *)
Theorem response_counts_agree
    (fetch : string -> option page) (set_to_list : list string -> list string)
    (exn_str : exn -> string) (request : SEMAnalysisRequest) :
  exists body,
    analyze_sem_campaign fetch set_to_list exn_str request = Ok200 body /\
    resp_total_keywords body = Z.of_nat (length (resp_keywords body)) /\
    bucket_sizes_sum (resp_ad_groups body) = resp_total_keywords body /\
    forall key kw,
      kw ∈ dict_get_list (resp_ad_groups body) key -> kw ∈ resp_keywords body.
Proof.
  eexists. split; [reflexivity |]. simpl.
  split; [done |]. split; [apply group_sizes_sum |].
  intros key kw. unfold dict_get_list. rewrite group_lookup.
  case_decide; simpl.
  - rewrite list_elem_of_filter. tauto.
  - intros Hnil. by apply elem_of_nil in Hnil.
Qed.

(** X12: grouping a concatenation is grouping both parts and
    concatenating bucket by bucket, under every key. *)
Theorem group_concatenation (kws1 kws2 : list keyword_record) (key : string) :
  dict_get_list (group_keywords_into_ad_groups (kws1 ++ kws2)) key
  = dict_get_list (group_keywords_into_ad_groups kws1) key
    ++ dict_get_list (group_keywords_into_ad_groups kws2) key.
Proof.
  unfold dict_get_list. rewrite !group_lookup.
  case_decide; simpl; [apply filter_app | done].
Qed.

(** X11: [service_locations] has no effect: two requests with the same
    websites and budgets get the same answer. *)
Theorem service_locations_unused
    (fetch : string -> option page) (set_to_list : list string -> list string)
    (exn_str : exn -> string) (request request' : SEMAnalysisRequest) :
  brand_website request = brand_website request' ->
  competitor_website request = competitor_website request' ->
  shopping_budget request = shopping_budget request' ->
  search_budget request = search_budget request' ->
  pmax_budget request = pmax_budget request' ->
  analyze_sem_campaign fetch set_to_list exn_str request
  = analyze_sem_campaign fetch set_to_list exn_str request'.
Proof.
  destruct request, request'. simpl. intros -> -> -> -> ->. reflexivity.
Qed.

(** X5: the generator reads the first ten seeds only, so when the brand
    site alone yields ten seeds the competitor website changes neither the
    keywords, nor the ad groups, nor the count, which is 60. *)
Theorem competitor_unused_after_ten_seeds
    (fetch : string -> option page) (set_to_list : list string -> list string)
    (brand : string) (competitor : option string)
    (locations : option (list string)) :
  length (extract_seed_keywords fetch set_to_list brand) = 10%nat ->
  exists d d',
    discover_keywords fetch set_to_list brand competitor locations
      = PipelineOk d /\
    discover_keywords fetch set_to_list brand None locations = PipelineOk d' /\
    keywords d = keywords d' /\ ad_groups d = ad_groups d' /\
    total_keywords d = total_keywords d' /\ total_keywords d = 60.
Proof.
  intros Hlen. do 2 eexists. split; [reflexivity |]. split; [reflexivity |].
  assert (get_keyword_ideas_from_google
            (collect_seeds fetch set_to_list brand competitor)
          = get_keyword_ideas_from_google
              (collect_seeds fetch set_to_list brand None)) as Heq.
  { unfold get_keyword_ideas_from_google, collect_seeds. simpl.
    destruct (Py.truthy competitor); [| done].
    by rewrite take_app_length', take_ge by lia. }
  simpl. rewrite Heq. repeat split.
  rewrite generated_pass_filter, generated_length. simpl.
  unfold collect_seeds. simpl. lia.
Qed.

(** ** More on the campaign suggestions *)

Lemma sum_search_volume_lower c kws :
  Forall (fun kw => c <= search_volume kw) kws ->
  c * Z.of_nat (length kws) <= sum_search_volume kws.
Proof.
  unfold sum_search_volume.
  induction 1 as [| kw kws Hkw Hall IH]; simpl; lia.
Qed.

Lemma filter_length_Z {A} (P : A -> Prop) `{forall x, Decision (P x)} (l : list A) :
  0 <= Z.of_nat (length (filter P l)) <= Z.of_nat (length l).
Proof. pose proof (length_filter P l). lia. Qed.

(** X9: for the result of the pipeline on any generated list, each of the
    three theme summaries counts at most [total_keywords] keywords and has
    an estimated reach of at least 500 per counted keyword, the high-volume
    theme of at least 5001 per counted keyword; there is no seasonal
    theme. *)
Theorem response_themes_bounded
    (exn_str : exn -> string) (seed_keywords : list string)
    (keyword_ideas : list keyword_record) (request : SEMAnalysisRequest) :
  exists body,
    analyze_with exn_str
      (PipelineOk (assemble_keyword_data seed_keywords keyword_ideas)) request
    = Ok200 body /\
    let themes := performance_max_themes (resp_campaign_suggestions body) in
    Forall (theme_within (resp_total_keywords body))
      (product_category_themes themes ++ use_case_themes themes
       ++ demographic_themes themes) /\
    Forall (fun t => 5001 * theme_keywords t <= estimated_reach t)
      (product_category_themes themes) /\
    seasonal_themes themes = [].
Proof.
  eexists. split; [reflexivity |]. cbv zeta. simpl.
  set (kept := filter (fun kw => 500 <= search_volume kw) keyword_ideas).
  assert (Forall (fun kw => 500 <= search_volume kw) kept) as Hkept
    by apply filter_Forall.
  assert (forall (P : keyword_record -> Prop) `{forall x, Decision (P x)},
            theme_within (Z.of_nat (length kept))
              {| theme := EmptyString; theme_keywords := Z.of_nat (length (filter P kept));
                 estimated_reach := sum_search_volume (filter P kept) |}) as Hfilter.
  { intros P HP. split; simpl; [apply filter_length_Z |].
    apply sum_search_volume_lower, Forall_forall. intros kw Hkw.
    apply list_elem_of_filter in Hkw as [_ Hkw].
    by apply (proj1 (Forall_forall _ _) Hkept). }
  rewrite !group_get_list by (unfold bucket_names; rewrite !elem_of_cons; auto 10).
  split; [| split; [| done]].
  - repeat constructor; simpl; try apply filter_length_Z;
      apply (Hfilter _ _).
  - repeat constructor. simpl.
    apply sum_search_volume_lower, Forall_forall. intros kw Hkw.
    apply list_elem_of_filter in Hkw as [Hkw _]. lia.
Qed.


(** ** Keywords generated from scraped seeds *)

Lemma rev_involutive s : String.rev (String.rev s) = s.
Proof. apply chars_inj. by rewrite !chars_rev, reverse_involutive. Qed.

Lemma islower_not_space a : islower a = true -> Py.isspace a = false.
Proof.
  destruct a as [[] [] [] [] [] [] [] []]; intros H; try reflexivity;
    discriminate H.
Qed.

Lemma islower_not_upper a : islower a = true -> Py.isupper a = false.
Proof.
  destruct a as [[] [] [] [] [] [] [] []]; intros H; try reflexivity;
    discriminate H.
Qed.

(** A string that starts and ends with a character other than white space
    is left as it is. *)
Lemma strip_id y a b :
  head (list_ascii_of_string y) = Some a ->
  last (list_ascii_of_string y) = Some b ->
  Py.isspace a = false -> Py.isspace b = false ->
  Py.strip y = y.
Proof.
  intros Hhead Hlast Ha Hb.
  destruct y as [| a' y]; [done |]. simpl in Hhead. injection Hhead as ->.
  unfold Py.strip. simpl. rewrite Ha. unfold Py.rstrip.
  pose proof (chars_rev (String a y)) as Hrev.
  destruct (String.rev (String a y)) as [| b' t] eqn:Hz.
  - rewrite <- head_reverse, <- Hrev in Hlast. done.
  - rewrite <- head_reverse, <- Hrev in Hlast. simpl in Hlast.
    injection Hlast as ->. simpl. rewrite Hb.
    rewrite <- Hz. apply rev_involutive.
Qed.

Lemma scraped_word_chars w c :
  scraped_word w -> c ∈ list_ascii_of_string w -> islower c = true.
Proof. intros [Hall _] Hc. by apply (proj1 (all_chars_forall _ _) Hall). Qed.

Lemma scraped_word_nonempty w :
  scraped_word w -> exists a s, w = String a s /\ islower a = true.
Proof.
  intros Hw. destruct w as [| a s].
  - destruct Hw as [_ Hlen]. simpl in Hlen. lia.
  - exists a, s. split; [done |].
    apply (scraped_word_chars _ _ Hw). simpl. by left.
Qed.

Lemma suffix_cases suffix :
  suffix ∈ suffixes ->
  suffix = EmptyString \/ suffix = " online" \/ suffix = " shop" \/
  suffix = " buy" \/ suffix = " best" \/ suffix = " reviews".
Proof.
  unfold suffixes. rewrite !elem_of_cons, elem_of_nil. tauto.
Qed.

Lemma string_app_nil s : s +:+ EmptyString = s.
Proof.
  induction s as [| a s IH]; [done |].
  change (String a (s +:+ EmptyString) = String a s). by rewrite IH.
Qed.

(** The generated text of a scraped seed is the seed followed by the
    suffix: [strip] removes nothing. *)
Lemma scraped_keyword_text j seed suffix :
  scraped_word seed -> suffix ∈ suffixes ->
  keyword (mock_keyword j seed suffix) = seed +:+ suffix.
Proof.
  intros Hseed Hsuffix. simpl.
  destruct (scraped_word_nonempty _ Hseed) as (a & s & -> & Ha).
  assert (exists b, last (list_ascii_of_string (String a s +:+ suffix)) = Some b
                    /\ Py.isspace b = false) as (b & Hlast & Hb).
  { rewrite chars_app, last_app.
    destruct (suffix_cases _ Hsuffix) as [-> | [-> | [-> | [-> | [-> | ->]]]]];
      simpl; try (eexists; split; [reflexivity | reflexivity]).
    destruct (last (list_ascii_of_string s)) as [b |] eqn:Hl.
    - exists b. rewrite last_cons, Hl. split; [done |].
      apply islower_not_space, (scraped_word_chars _ _ Hseed).
      simpl. right. by apply last_Some_elem_of.
    - exists a. rewrite last_cons, Hl. split; [done |].
      by apply islower_not_space. }
  apply (strip_id _ a b); [done | done | by apply islower_not_space | done].
Qed.

Lemma lower_app s t : Py.lower (s +:+ t) = Py.lower s +:+ Py.lower t.
Proof. induction s as [| a s IH]; simpl; [done |]. by rewrite IH. Qed.

Lemma lower_scraped w : scraped_word w -> Py.lower w = w.
Proof.
  intros [Hall _]. rewrite all_chars_forall in Hall.
  induction w as [| a w IH]; [done |]. simpl.
  rewrite IH by (intros c Hc; apply Hall; simpl; by right).
  unfold Py.lower_char. rewrite islower_not_upper; [done |].
  apply Hall. simpl. by left.
Qed.

(** Characters that are no separators are gathered into the current piece. *)
Lemma runs_prefix sep p : forall cur t,
  (forall c, c ∈ list_ascii_of_string p -> sep c = false) ->
  Py.runs sep cur (p +:+ t) = Py.runs sep (String.rev_app p cur) t.
Proof.
  induction p as [| a p IH]; intros cur t Hp; [done |].
  simpl. rewrite Hp by (simpl; by left).
  apply IH. intros c Hc. apply Hp. simpl. by right.
Qed.

Lemma rev_app_cons p : forall a cur,
  exists b t, String.rev_app p (String a cur) = String b t.
Proof.
  induction p as [| c p IH]; intros a cur; simpl; [by eexists _, _ |].
  apply IH.
Qed.

(** A scraped seed with any of the suffixes has one or two words. *)
Lemma scraped_keyword_words j seed suffix :
  scraped_word seed -> suffix ∈ suffixes ->
  (length (Py.split (Py.lower (keyword (mock_keyword j seed suffix)))) <= 2)%nat.
Proof.
  intros Hseed Hsuffix. rewrite scraped_keyword_text by done.
  rewrite lower_app, (lower_scraped _ Hseed). unfold Py.split.
  rewrite runs_prefix
    by (intros c Hc; by apply islower_not_space, (scraped_word_chars _ _ Hseed)).
  destruct (scraped_word_nonempty _ Hseed) as (a & s & -> & _). simpl.
  destruct (rev_app_cons s a EmptyString) as (b & t & ->).
  destruct (suffix_cases _ Hsuffix) as [-> | [-> | [-> | [-> | [-> | ->]]]]];
    simpl; lia.
Qed.

Lemma scraped_not_long_tail seed_keywords kw :
  Forall scraped_word seed_keywords ->
  kw ∈ get_keyword_ideas_from_google seed_keywords ->
  bucket_by_priority kw <> "long_tail_terms".
Proof.
  intros Hseeds Hkw.
  apply generated_elem in Hkw as (j & seed & suffix & _ & Hseed & Hs & ->).
  pose proof (scraped_keyword_words j seed suffix
                (proj1 (Forall_forall _ _) Hseeds _ Hseed) Hs) as Hwords.
  unfold bucket_by_priority. cbv zeta.
  rewrite decide_False by lia. repeat case_decide; discriminate.
Qed.

Lemma filter_none {A} (P : A -> Prop) `{forall x, Decision (P x)} (l : list A) :
  Forall (fun x => ~ P x) l -> filter P l = [].
Proof.
  induction 1 as [| x l Hx Hl IH]; [done |].
  by rewrite filter_cons, decide_False.
Qed.

Lemma long_tail_empty_for_scraped seed_keywords :
  Forall scraped_word seed_keywords ->
  dict_get_list
    (group_keywords_into_ad_groups
       (get_keyword_ideas_from_google seed_keywords)) "long_tail_terms" = [].
Proof.
  intros Hseeds.
  rewrite group_get_list by (unfold bucket_names; rewrite !elem_of_cons; auto 10).
  apply filter_none. apply Forall_forall. intros kw Hkw.
  by apply scraped_not_long_tail with seed_keywords.
Qed.

Lemma collected_seeds_scraped fetch set_to_list brand competitor :
  set_semantics set_to_list ->
  is_Some (fetch brand) ->
  (forall url, competitor = Some url -> is_Some (fetch url)) ->
  Forall scraped_word (collect_seeds fetch set_to_list brand competitor).
Proof.
  intros Hset [soup Hbrand] Hcomp. unfold collect_seeds.
  assert (Forall scraped_word (extract_seed_keywords fetch set_to_list brand))
    as Hb.
  { eapply Forall_impl; [by apply (extracted_words _ _ _ soup) |].
    simpl. by intros w [Hw _]. }
  destruct competitor as [url |]; simpl; [| done].
  destruct url as [| c url]; [done |].
  apply Forall_app. split; [done |].
  destruct (Hcomp _ eq_refl) as [soup' Hc].
  eapply Forall_impl; [by apply (extracted_words _ _ _ soup') |].
  simpl. by intros w [Hw _].
Qed.

(** X13: when the brand page, and the competitor page if one is named,
    are fetched, no generated keyword is a long-tail term: scraped seeds are
    single words and every suffix adds at most one, so [long_tail_terms] is
    empty and the use-case theme counts 0 keywords. *)
Theorem scraped_seeds_never_long_tail
    (fetch : string -> option page) (set_to_list : list string -> list string)
    (exn_str : exn -> string) (request : SEMAnalysisRequest) :
  set_semantics set_to_list ->
  is_Some (fetch (brand_website request)) ->
  (forall url, competitor_website request = Some url -> is_Some (fetch url)) ->
  exists body,
    analyze_sem_campaign fetch set_to_list exn_str request = Ok200 body /\
    dict_get_list (resp_ad_groups body) "long_tail_terms" = [] /\
    use_case_themes (performance_max_themes (resp_campaign_suggestions body))
      = [ {| theme := "Detailed Solutions"; theme_keywords := 0;
             estimated_reach := 0 |} ].
Proof.
  intros Hset Hbrand Hcomp.
  pose proof (collected_seeds_scraped fetch set_to_list _ _ Hset Hbrand Hcomp)
    as Hseeds.
  apply long_tail_empty_for_scraped in Hseeds.
  eexists. split; [reflexivity |]. simpl.
  rewrite generated_pass_filter, Hseeds. done.
Qed.

Lemma set_semantics_nil set_to_list :
  set_semantics set_to_list -> set_to_list [] = [].
Proof.
  intros Hset. apply elem_of_nil_inv. intros w Hw.
  apply (proj1 (proj2 (Hset _) _)) in Hw. by apply elem_of_nil in Hw.
Qed.

(** X14: a request whose brand website cannot be fetched and that names
    no competitor gets the same analysis whatever the URL and the budgets:
    the 24 keywords generated from the fallback phrases, with 1 brand term,
    3 category terms, no competitor or location term, 20 long-tail terms,
    and 24 recommendations. *)
Theorem unreachable_brand_analysis
    (fetch : string -> option page) (set_to_list : list string -> list string)
    (exn_str : exn -> string) (request : SEMAnalysisRequest) :
  fetch (brand_website request) = None ->
  Py.truthy (competitor_website request) = false ->
  exists body,
    analyze_sem_campaign fetch set_to_list exn_str request = Ok200 body /\
    resp_keywords body = get_keyword_ideas_from_google fallback_seeds /\
    resp_total_keywords body = 24 /\
    map (fun key => length (dict_get_list (resp_ad_groups body) key))
      bucket_names = [1; 3; 0; 0; 20]%nat /\
    size (resp_cpc_recommendations body) = 24%nat.
Proof.
  intros Hfetch Hcomp. eexists. split; [reflexivity |]. simpl.
  unfold collect_seeds. rewrite Hcomp.
  rewrite (extract_seed_keywords_failure _ _ _ Hfetch).
  rewrite generated_pass_filter.
  repeat split; vm_compute; reflexivity.
Qed.

(** X15: a page without title, description and headings is no failure:
    the seeds are empty, not the fallback phrases, and the answer holds no
    keyword, no recommendation and five empty ad groups. *)
Theorem blank_page_analysis
    (fetch : string -> option page) (set_to_list : list string -> list string)
    (exn_str : exn -> string) (request : SEMAnalysisRequest) :
  set_semantics set_to_list ->
  fetch (brand_website request)
    = Some {| page_title := None; page_meta_description := None;
              page_headings := [] |} ->
  Py.truthy (competitor_website request) = false ->
  exists body,
    analyze_sem_campaign fetch set_to_list exn_str request = Ok200 body /\
    resp_seed_keywords_used body = [] /\
    resp_total_keywords body = 0 /\
    resp_keywords body = [] /\
    resp_cpc_recommendations body = ∅ /\
    resp_ad_groups body = empty_ad_groups.
Proof.
  intros Hset Hfetch Hcomp. eexists. split; [reflexivity |]. simpl.
  unfold collect_seeds. rewrite Hcomp.
  assert (extract_seed_keywords fetch set_to_list (brand_website request) = [])
    as ->.
  { unfold extract_seed_keywords. rewrite Hfetch. simpl.
    change (Py.findall_words EmptyString) with (@nil string).
    rewrite filter_nil, (set_semantics_nil _ Hset). done. }
  repeat split.
Qed.

(** ** Distinct keyword texts *)

Lemma suffix_starts_with_space suffix a t :
  suffix ∈ suffixes -> suffix = String a t -> islower a = false.
Proof.
  intros Hs ->.
  destruct (suffix_cases _ Hs) as [H | [H | [H | [H | [H | H]]]]];
    inversion H; reflexivity.
Qed.

(** A text made of a lower-case word and a suffix is made so in one way. *)
Lemma seed_suffix_unique s1 : forall s2 u1 u2,
  Py.all_chars islower s1 = true -> Py.all_chars islower s2 = true ->
  u1 ∈ suffixes -> u2 ∈ suffixes ->
  s1 +:+ u1 = s2 +:+ u2 -> s1 = s2 /\ u1 = u2.
Proof.
  induction s1 as [| a s1 IH]; intros s2 u1 u2 H1 H2 Hu1 Hu2 Heq.
  - destruct s2 as [| b s2]; [done |].
    change (u1 = String b (s2 +:+ u2)) in Heq.
    pose proof (suffix_starts_with_space _ _ _ Hu1 Heq) as Hb.
    apply andb_true_iff in H2 as [H2 _]. congruence.
  - destruct s2 as [| b s2].
    + change (String a (s1 +:+ u1) = u2) in Heq. symmetry in Heq.
      pose proof (suffix_starts_with_space _ _ _ Hu2 Heq) as Ha.
      apply andb_true_iff in H1 as [H1 _]. congruence.
    + change (String a (s1 +:+ u1) = String b (s2 +:+ u2)) in Heq.
      injection Heq as -> Heq.
      apply andb_true_iff in H1 as [_ H1]. apply andb_true_iff in H2 as [_ H2].
      destruct (IH _ _ _ H1 H2 Hu1 Hu2 Heq) as [-> ->]. done.
Qed.

Lemma suffixes_NoDup : NoDup suffixes.
Proof. apply (bool_decide_unpack _). by vm_compute. Qed.

Lemma mock_texts_NoDup seeds : forall i,
  Forall scraped_word seeds -> NoDup seeds ->
  NoDup (map keyword (mock_keywords i seeds)).
Proof.
  induction seeds as [| seed rest IH]; intros i Hall Hnd; [constructor |].
  apply Forall_cons in Hall as [Hseed Hrest].
  apply NoDup_cons in Hnd as [Hnotin Hnd].
  change (mock_keywords i (seed :: rest)) with
    (map (mock_keyword i seed) suffixes ++ mock_keywords (i + 1) rest).
  rewrite map_app. apply NoDup_app. split; [| split].
  - rewrite map_map.
    rewrite (map_ext_in _ (fun suffix => seed +:+ suffix)).
    + apply (NoDup_fmap_2 (String.app seed)), suffixes_NoDup.
    + intros suffix Hs. apply scraped_keyword_text; [done |].
      by apply list_elem_of_In.
  - intros text Hin1 Hin2.
    apply list_elem_of_In, in_map_iff in Hin1 as (kw1 & <- & Hkw1).
    apply in_map_iff in Hkw1 as (u1 & <- & Hu1). apply list_elem_of_In in Hu1.
    apply list_elem_of_In, in_map_iff in Hin2 as (kw2 & Htext & Hkw2).
    apply list_elem_of_In, mock_keywords_elem in Hkw2
      as (j & seed' & u2 & _ & Hseed' & Hu2 & ->).
    pose proof (proj1 (Forall_forall _ _) Hrest _ Hseed') as Hscraped.
    rewrite !scraped_keyword_text in Htext by done.
    destruct (seed_suffix_unique _ _ _ _ (proj1 Hscraped) (proj1 Hseed)
                Hu2 Hu1 Htext) as [-> _].
    done.
  - by apply IH.
Qed.

Lemma generated_texts_NoDup seed_keywords :
  Forall scraped_word seed_keywords -> NoDup seed_keywords ->
  NoDup (map keyword (get_keyword_ideas_from_google seed_keywords)).
Proof.
  intros Hall Hnd. apply mock_texts_NoDup.
  - by apply Forall_take.
  - eapply sublist_NoDup; [| apply sublist_take]. done.
Qed.

(** X16: for a request without competitor whose brand page is fetched,
    the generated keyword texts are pairwise different, so there is exactly
    one CPC recommendation per keyword. *)
Theorem one_recommendation_per_keyword
    (fetch : string -> option page) (set_to_list : list string -> list string)
    (exn_str : exn -> string) (request : SEMAnalysisRequest) :
  set_semantics set_to_list ->
  is_Some (fetch (brand_website request)) ->
  Py.truthy (competitor_website request) = false ->
  exists body,
    analyze_sem_campaign fetch set_to_list exn_str request = Ok200 body /\
    NoDup (map keyword (resp_keywords body)) /\
    Z.of_nat (size (resp_cpc_recommendations body)) = resp_total_keywords body.
Proof.
  intros Hset [soup Hfetch] Hcomp. eexists. split; [reflexivity |]. simpl.
  unfold collect_seeds. rewrite Hcomp, generated_pass_filter.
  set (seeds := extract_seed_keywords fetch set_to_list (brand_website request)).
  assert (NoDup (map keyword (get_keyword_ideas_from_google seeds))) as Hnd.
  { apply generated_texts_NoDup.
    - eapply Forall_impl; [by apply (extracted_words _ _ _ soup) |].
      simpl. by intros w [Hw _].
    - unfold seeds, extract_seed_keywords. rewrite Hfetch.
      eapply sublist_NoDup; [| apply sublist_take]. apply Hset. }
  split; [done |]. f_equal.
  rewrite <- size_dom.
  unfold calculate_cpc_recommendations.
  rewrite recommend_loop_dom, dom_empty_L, union_empty_l_L.
  rewrite size_list_to_set by done. by rewrite length_map.
Qed.

(** ** Instances of the further properties *)

Lemma extract_seeds_bounded_witness :
  set_semantics remove_dups /\
  (length (extract_seed_keywords rich_page remove_dups "https://brand.example")
   <= 10)%nat /\
  NoDup (extract_seed_keywords rich_page remove_dups "https://brand.example").
Proof.
  split; [exact remove_dups_set_semantics |].
  exact (extract_seeds_bounded rich_page remove_dups "https://brand.example"
           remove_dups_set_semantics).
Defined.

Lemma extract_seeds_are_words_witness :
  set_semantics remove_dups /\
  one_page "https://brand.example"
    = Some {| page_title := Some "The Best Running Shoes for You";
              page_meta_description := Some "Shoes, boots and more; shoes4all";
              page_headings := ["Trail & Road"; "Our running_gear"] |} /\
  Forall (fun w => scraped_word w /\ w ∉ stop_words)
    (extract_seed_keywords one_page remove_dups "https://brand.example").
Proof.
  split; [exact remove_dups_set_semantics |]. split; [reflexivity |].
  exact (extract_seeds_are_words one_page remove_dups "https://brand.example" _
           remove_dups_set_semantics eq_refl).
Defined.

Lemma fallback_only_on_failure_witness :
  set_semantics remove_dups /\
  (extract_seed_keywords offline remove_dups "https://brand.invalid"
     = fallback_seeds
   <-> offline "https://brand.invalid" = None).
Proof.
  split; [exact remove_dups_set_semantics |].
  exact (fallback_only_on_failure offline remove_dups "https://brand.invalid"
           remove_dups_set_semantics).
Defined.

Lemma competitor_unused_after_ten_seeds_witness :
  length (extract_seed_keywords rich_page remove_dups "https://brand.example")
    = 10%nat /\
  exists d d',
    discover_keywords rich_page remove_dups "https://brand.example"
      (Some "https://competitor.example") None = PipelineOk d /\
    discover_keywords rich_page remove_dups "https://brand.example" None None
      = PipelineOk d' /\
    keywords d = keywords d' /\ ad_groups d = ad_groups d' /\
    total_keywords d = total_keywords d' /\ total_keywords d = 60.
Proof.
  assert (length (extract_seed_keywords rich_page remove_dups
                    "https://brand.example") = 10%nat) as Hlen
    by (vm_compute; reflexivity).
  split; [exact Hlen |].
  exact (competitor_unused_after_ten_seeds rich_page remove_dups
           "https://brand.example" (Some "https://competitor.example") None
           Hlen).
Defined.


Lemma service_locations_unused_witness :
  service_locations brand_only_request
    <> service_locations brand_without_locations /\
  analyze_sem_campaign offline remove_dups http_exception_str brand_only_request
  = analyze_sem_campaign offline remove_dups http_exception_str
      brand_without_locations.
Proof.
  split; [discriminate |].
  exact (service_locations_unused offline remove_dups http_exception_str
           brand_only_request brand_without_locations
           eq_refl eq_refl eq_refl eq_refl eq_refl).
Defined.

Lemma scraped_seeds_never_long_tail_witness :
  set_semantics remove_dups /\
  is_Some (one_page (brand_website brand_and_competitor_request)) /\
  exists body,
    analyze_sem_campaign one_page remove_dups http_exception_str
      brand_and_competitor_request = Ok200 body /\
    dict_get_list (resp_ad_groups body) "long_tail_terms" = [].
Proof.
  assert (is_Some (one_page (brand_website brand_and_competitor_request)))
    as Hbrand by (eexists; reflexivity).
  split; [exact remove_dups_set_semantics |]. split; [exact Hbrand |].
  destruct (scraped_seeds_never_long_tail one_page remove_dups
              http_exception_str brand_and_competitor_request
              remove_dups_set_semantics Hbrand
              (fun url _ => ex_intro _ _ eq_refl))
    as (body & Hbody & Hlong & _).
  exists body. split; [exact Hbody | exact Hlong].
Defined.

Lemma unreachable_brand_analysis_witness :
  offline (brand_website brand_only_request) = None /\
  Py.truthy (competitor_website brand_only_request) = false /\
  exists body,
    analyze_sem_campaign offline remove_dups http_exception_str
      brand_only_request = Ok200 body /\
    resp_total_keywords body = 24.
Proof.
  split; [reflexivity |]. split; [reflexivity |].
  destruct (unreachable_brand_analysis offline remove_dups http_exception_str
              brand_only_request eq_refl eq_refl)
    as (body & Hbody & _ & Htotal & _).
  exists body. split; [exact Hbody | exact Htotal].
Defined.

Lemma blank_page_analysis_witness :
  set_semantics remove_dups /\
  Py.truthy (competitor_website brand_only_request) = false /\
  exists body,
    analyze_sem_campaign blank_page remove_dups http_exception_str
      brand_only_request = Ok200 body /\
    resp_seed_keywords_used body = [] /\ resp_total_keywords body = 0.
Proof.
  split; [exact remove_dups_set_semantics |]. split; [reflexivity |].
  destruct (blank_page_analysis blank_page remove_dups http_exception_str
              brand_only_request remove_dups_set_semantics eq_refl eq_refl)
    as (body & Hbody & Hseeds & Htotal & _).
  exists body. split; [exact Hbody |]. split; [exact Hseeds | exact Htotal].
Defined.

Lemma one_recommendation_per_keyword_witness :
  set_semantics remove_dups /\
  is_Some (one_page (brand_website brand_only_request)) /\
  Py.truthy (competitor_website brand_only_request) = false /\
  exists body,
    analyze_sem_campaign one_page remove_dups http_exception_str
      brand_only_request = Ok200 body /\
    Z.of_nat (size (resp_cpc_recommendations body)) = resp_total_keywords body.
Proof.
  assert (is_Some (one_page (brand_website brand_only_request))) as Hbrand
    by (eexists; reflexivity).
  split; [exact remove_dups_set_semantics |]. split; [exact Hbrand |].
  split; [reflexivity |].
  destruct (one_recommendation_per_keyword one_page remove_dups
              http_exception_str brand_only_request
              remove_dups_set_semantics Hbrand eq_refl)
    as (body & Hbody & _ & Hsize).
  exists body. split; [exact Hbody | exact Hsize].
Defined.
